(** * Splunk MCP server: a shallow embedding of [src/index.ts]

    The server keeps one mutable field, [splunkService], and answers five
    tools and two resources by calling the Splunk SDK, whose methods report
    through completion callbacks.  The embedding is a state-and-error monad
    over that field plus a log of the SDK calls issued; the SDK itself is a
    record of answers ([Backend]), one per method declared in
    [src/types/splunk-sdk.d.ts].  Every SDK method is taken to invoke its
    callback once, after the calling code has returned. *)

From Stdlib Require Import Floats.
From stdpp Require Import gmap strings list.

Set Warnings "-register-all".
Local Open Scope string_scope.

(** ** JavaScript values *)

(** Tool arguments, SDK parameter objects and search results are untyped
    JavaScript data.  Numbers are IEEE doubles. *)
Inductive value :=
  | VUndefined
  | VNull
  | VBool (b : bool)
  | VNum (x : float)
  | VStr (s : string)
  | VArr (items : list value)
  | VObj (fields : list (string * value)).

(** Property read on an object used as a dictionary: a missing key reads
    as [undefined]. *)
Definition prop (o : gmap string value) (k : string) : value :=
  default VUndefined (o !! k).

(** [new Error(message)]; [TypeError] is an [Error] too.  The SDK's
    [err] arguments are [Error] objects, as [splunk-sdk.d.ts] types them. *)
Record JsError := Error { message : string }.

(** What the engine throws on [job.track] when [job] is [undefined]. *)
Definition TypeError_reading (field : string) : JsError :=
  Error ("Cannot read properties of undefined (reading '" +:+ field +:+ "')").

(** [s.startsWith(p)] *)
Definition startsWith (s p : string) : bool := String.prefix p s.

(** Truthiness of an optional string argument: [undefined] and the empty
    string are falsy. *)
Definition truthy (o : option string) : bool :=
  match o with
  | Some s => negb (String.eqb s "")
  | None => false
  end.

Definition of_optional (o : option string) : value :=
  match o with
  | Some s => VStr s
  | None => VUndefined
  end.

(** Text of a response.  [JSON.stringify] and number formatting are
    built-ins of the engine and stay symbolic. *)
Inductive Text :=
  | Str (s : string)
  | Stringify (v : value)          (* JSON.stringify(v, null, 2) *)
  | OfNumber (x : float)           (* `${x}` *)
  | Cat (t1 t2 : Text).

(** ** The SDK's data, after [splunk-sdk.d.ts] *)

Module ServiceOptions.
Record t := {
  host : string;
  port : float;
  username : string;
  password : string;
  scheme : string;
  version : option string
}.
End ServiceOptions.

(** [new Service(options)] *)
Record Service := new_Service { options : ServiceOptions.t }.

(** A search job is an opaque handle. *)
Record SearchJob := { sid : nat }.

Module SavedSearch.
Record Dispatch := {
  earliest_time : option string;
  latest_time : option string
}.
Record Properties := {
  search : string;
  description : string;
  dispatch : option Dispatch
}.
Record t := { name : string; properties : Properties }.
End SavedSearch.

Module SavedSearches.
Record t := { entities : list SavedSearch.t }.

(** [item(name): SavedSearch | null], the entity of that name. *)
Definition item (c : t) (name : string) : option SavedSearch.t :=
  find (λ s, String.eqb (SavedSearch.name s) name) (entities c).

(** [list(): SavedSearch[]] *)
Definition list (c : t) := entities c.
End SavedSearches.

Module Index.
Record Properties := {
  totalEventCount : float;
  currentDBSizeMB : float;
  maxDataSize : string
}.
Record t := { name : string; properties : Properties }.
End Index.

Module Indexes.
Record t := { entities : list Index.t }.
Definition list (c : t) := entities c.
End Indexes.

Module ServerInfo.
Record Properties := {
  version : string;
  build : string;
  serverName : string;
  licenseState : string;
  mode : string
}.
Record t := { properties : Properties }.
End ServerInfo.

(** What the SDK hands to each completion callback: the [err?] argument
    and, where the method has one, the optional result. *)
Record Backend := {
  login : Service → option JsError;
  search : Service → value → gmap string value → option JsError * option SearchJob;
  track : SearchJob → gmap string value → option JsError;
  results : SearchJob → gmap string value → option JsError * value;
  savedSearches_fetch : Service → option JsError * option SavedSearches.t;
  indexes_fetch : Service → option JsError * option Indexes.t;
  dispatch : SavedSearch.t → gmap string value → option JsError * option SearchJob;
  serverInfo : Service → option JsError * option ServerInfo.t
}.

(** The requests that leave the process. *)
Inductive Call :=
  | CLogin (svc : Service)
  | CSearch (svc : Service) (query : value) (params : gmap string value)
  | CTrack (job : SearchJob) (opts : gmap string value)
  | CResults (job : SearchJob) (opts : gmap string value)
  | CFetchSavedSearches (svc : Service)
  | CFetchIndexes (svc : Service)
  | CDispatch (saved : SavedSearch.t) (opts : gmap string value)
  | CServerInfo (svc : Service).

(** ** Server state and the monad of handlers *)

(** [splunkService] is the class field; [calls] logs the SDK requests
    issued so far, oldest first. *)
Record State := {
  splunkService : option Service;
  calls : list Call
}.

(** How an awaited promise ends.  [Uncaught] is an exception thrown inside
    an SDK callback: no promise sees it, and the handler never answers. *)
Inductive Result (A : Type) :=
  | Resolved (a : A)
  | Rejected (e : JsError)
  | Uncaught (e : JsError).
Arguments Resolved {A} a.
Arguments Rejected {A} e.
Arguments Uncaught {A} e.

Definition Async (A : Type) : Type := State → Result A * State.

Definition resolve {A} (a : A) : Async A := λ st, (Resolved a, st).
Definition reject {A} (e : JsError) : Async A := λ st, (Rejected e, st).
Definition uncaught {A} (e : JsError) : Async A := λ st, (Uncaught e, st).

Definition bind {A B} (m : Async A) (k : A → Async B) : Async B :=
  λ st,
    match m st with
    | (Resolved a, st') => k a st'
    | (Rejected e, st') => (Rejected e, st')
    | (Uncaught e, st') => (Uncaught e, st')
    end.

(** [try { ... await ... } catch (error) { ... }] *)
Definition try_catch {A} (body : Async A) (handler : JsError → Async A) : Async A :=
  λ st,
    match body st with
    | (Rejected e, st') => handler e st'
    | r => r
    end.

Declare Scope async_scope.
Delimit Scope async_scope with async.
Notation "x <- m ;; k" := (bind m (λ x, k))
  (at level 100, m at next level, right associativity) : async_scope.
Notation "m ;;; k" := (bind m (λ _, k))
  (at level 100, right associativity) : async_scope.
Local Open Scope async_scope.

Definition get_splunkService : Async (option Service) :=
  λ st, (Resolved (splunkService st), st).

Definition set_splunkService (s : option Service) : Async unit :=
  λ st, (Resolved tt, {| splunkService := s; calls := calls st |}).

(** Issue an SDK request: log it, and continue with the callback's
    arguments. *)
Definition request {A} (c : Call) (answer : A) : Async A :=
  λ st, (Resolved answer, {| splunkService := splunkService st; calls := calls st ++ [c] |}).

(** ** Parameter schemas

    The schemas are written with zod.  A schema is read as the function
    its [parse] computes, [None] standing for a thrown [ZodError]. *)

Definition ZodType (A : Type) : Type := value → option A.

Definition z_string : ZodType string :=
  λ v, match v with VStr s => Some s | _ => None end.

(** [z.number()] refuses [NaN]. *)
Definition z_number : ZodType float :=
  λ v, match v with
       | VNum x => if PrimFloat.eqb x x then Some x else None
       | _ => None
       end.

(** [.min(m)]: too small when [x < m]. *)
Definition z_min (m : float) (s : ZodType float) : ZodType float :=
  λ v, match s v with
       | Some x => if PrimFloat.ltb x m then None else Some x
       | None => None
       end.

(** [.max(m)]: too big when [x > m]. *)
Definition z_max (m : float) (s : ZodType float) : ZodType float :=
  λ v, match s v with
       | Some x => if PrimFloat.ltb m x then None else Some x
       | None => None
       end.

Definition z_enum (choices : list string) : ZodType string :=
  λ v, match v with
       | VStr s => if bool_decide (s ∈ choices) then Some s else None
       | _ => None
       end.

Definition z_optional {A} (s : ZodType A) : ZodType (option A) :=
  λ v, match v with
       | VUndefined => Some None
       | _ => Some <$> s v
       end.

(** [.default(d)]: [undefined] is replaced by [d] before parsing. *)
Definition z_default {A} (s : ZodType A) (d : value) : ZodType A :=
  λ v, match v with
       | VUndefined => s d
       | _ => s v
       end.

Module SearchArgs.
Record t := {
  query : string;
  earliest_time : option string;
  latest_time : option string;
  max_count : float;
  output_mode : string
}.
End SearchArgs.

Module SplunkConfig.
Record t := {
  host : string;
  port : float;
  username : string;
  password : string;
  scheme : string
}.
End SplunkConfig.

Module RunSavedSearchArgs.
Record t := {
  name : string;
  earliest_time : option string;
  latest_time : option string
}.
End RunSavedSearchArgs.

(** The object schema of the [search] tool. *)
Definition search_schema (args : gmap string value) : option SearchArgs.t :=
  query ← z_string (prop args "query");
  earliest_time ← z_optional z_string (prop args "earliest_time");
  latest_time ← z_optional z_string (prop args "latest_time");
  max_count ← z_default (z_max 10000 (z_min 1 z_number)) (VNum 100) (prop args "max_count");
  output_mode ← z_default (z_enum ["json"; "csv"; "xml"]) (VStr "json") (prop args "output_mode");
  Some {| SearchArgs.query := query;
          SearchArgs.earliest_time := earliest_time;
          SearchArgs.latest_time := latest_time;
          SearchArgs.max_count := max_count;
          SearchArgs.output_mode := output_mode |}.

(** The object schema of the [configure] tool; the handler packs the five
    parsed fields into a [SplunkConfig] at once. *)
Definition configure_schema (args : gmap string value) : option SplunkConfig.t :=
  host ← z_string (prop args "host");
  port ← z_default z_number (VNum 8089) (prop args "port");
  username ← z_string (prop args "username");
  password ← z_string (prop args "password");
  scheme ← z_default (z_enum ["http"; "https"]) (VStr "https") (prop args "scheme");
  Some {| SplunkConfig.host := host;
          SplunkConfig.port := port;
          SplunkConfig.username := username;
          SplunkConfig.password := password;
          SplunkConfig.scheme := scheme |}.

Definition empty_schema (args : gmap string value) : option unit := Some tt.

Definition run_saved_search_schema (args : gmap string value)
  : option RunSavedSearchArgs.t :=
  name ← z_string (prop args "name");
  earliest_time ← z_optional z_string (prop args "earliest_time");
  latest_time ← z_optional z_string (prop args "latest_time");
  Some {| RunSavedSearchArgs.name := name;
          RunSavedSearchArgs.earliest_time := earliest_time;
          RunSavedSearchArgs.latest_time := latest_time |}.

(** ** Responses *)

Module TextContent.
Record t := { type : string; text : Text }.
End TextContent.

(** [isError] is [None] when the field is absent. *)
Record CallToolResult := {
  content : list TextContent.t;
  isError : option bool
}.

Module ResourceContents.
Record t := { uri : string; text : Text }.
End ResourceContents.

Record ReadResourceResult := { contents : list ResourceContents.t }.

Definition text_content (t : Text) : TextContent.t :=
  {| TextContent.type := "text"; TextContent.text := t |}.

(** The [catch] branch of a tool handler. *)
Definition error_result (prefix : string) (error : JsError) : CallToolResult :=
  {| content := [text_content (Str (prefix +:+ message error))];
     isError := Some true |}.

(** The success branch of a tool handler. *)
Definition text_result (t : Text) : CallToolResult :=
  {| content := [text_content t]; isError := None |}.

Definition not_initialized : JsError :=
  Error "Splunk service not initialized. Please configure connection first.".

(** [McpServer.tool(name, schema, cb)]: the arguments are parsed with the
    schema, and [cb] runs on the parsed object only.  A parse failure is
    answered by the protocol library. *)
Definition invalid_params (name : string) : JsError :=
  Error ("Invalid arguments for tool " +:+ name).

Definition tool {A} (name : string) (schema : gmap string value → option A)
    (cb : A → Async CallToolResult) (args : gmap string value) : Async CallToolResult :=
  match schema args with
  | Some parsed => cb parsed
  | None => reject (invalid_params name)
  end.

(** ** The server, [class SplunkMCPServer] *)

Section SplunkMCPServer.

Variable sdk : Backend.

(** *** Client methods *)

Definition service_of (config : SplunkConfig.t) : Service :=
  new_Service
    {| ServiceOptions.host := SplunkConfig.host config;
       ServiceOptions.port := SplunkConfig.port config;
       ServiceOptions.username := SplunkConfig.username config;
       ServiceOptions.password := SplunkConfig.password config;
       ServiceOptions.scheme := SplunkConfig.scheme config;
       ServiceOptions.version := Some "8.0" |}.

(** The promise executor of [configureSplunkConnection]: the field is
    assigned, then [login] is issued and the executor returns. *)
Definition configure_executor (config : SplunkConfig.t) : Async Service :=
  set_splunkService (Some (service_of config)) ;;;
  request (CLogin (service_of config)) (service_of config).

(** The callback handed to [login]. *)
Definition login_callback (err : option JsError) : Async unit :=
  match err with
  | Some e => set_splunkService None ;;; reject e
  | None => resolve tt
  end.

Definition configureSplunkConnection (config : SplunkConfig.t) : Async unit :=
  svc <- configure_executor config ;;
  login_callback (login sdk svc).

Definition runSearch (searchParams : gmap string value) : Async (option SearchJob) :=
  this <- get_splunkService ;;
  match this with
  | None => reject (Error "Splunk service not initialized")
  | Some svc =>
      let query := prop searchParams "search" in
      r <- request (CSearch svc query searchParams) (search sdk svc query searchParams) ;;
      match r with
      | (Some err, _) => reject err
      | (None, job) => resolve job
      end
  end.

(** [job.track] then [job.results], as both [getSearchResults] and
    [runSavedSearch] chain them. *)
Definition track_then_results (job : SearchJob) (outputMode : string) : Async value :=
  err <- request (CTrack job ∅) (track sdk job ∅) ;;
  match err with
  | Some e => reject e
  | None =>
      let opts : gmap string value := {[ "output_mode" := VStr outputMode ]} in
      r <- request (CResults job opts) (results sdk job opts) ;;
      match r with
      | (Some e, _) => reject e
      | (None, res) => resolve res
      end
  end.

(** [job.track] is reached inside the promise executor, so reading it
    off an absent job rejects the promise. *)
Definition getSearchResults (job : option SearchJob) (outputMode : string) : Async value :=
  match job with
  | None => reject (TypeError_reading "track")
  | Some j => track_then_results j outputMode
  end.

Definition project_saved_search (search : SavedSearch.t) : value :=
  let p := SavedSearch.properties search in
  VObj [ ("name", VStr (SavedSearch.name search));
         ("search", VStr (SavedSearch.search p));
         ("description", VStr (SavedSearch.description p));
         ("earliest_time",
           match SavedSearch.dispatch p with
           | Some d => of_optional (SavedSearch.earliest_time d)
           | None => VUndefined
           end);
         ("latest_time",
           match SavedSearch.dispatch p with
           | Some d => of_optional (SavedSearch.latest_time d)
           | None => VUndefined
           end) ].

Definition getSavedSearches : Async value :=
  this <- get_splunkService ;;
  match this with
  | None => reject (Error "Splunk service not initialized")
  | Some svc =>
      r <- request (CFetchSavedSearches svc) (savedSearches_fetch sdk svc) ;;
      match r with
      | (Some err, _) => reject err
      | (None, Some savedSearches) =>
          resolve (VArr (project_saved_search <$> SavedSearches.list savedSearches))
      | (None, None) => resolve VUndefined
      end
  end.

Definition project_index (index : Index.t) : value :=
  let p := Index.properties index in
  VObj [ ("name", VStr (Index.name index));
         ("totalEventCount", VNum (Index.totalEventCount p));
         ("currentDBSizeMB", VNum (Index.currentDBSizeMB p));
         ("maxDataSize", VStr (Index.maxDataSize p)) ].

Definition getIndexes : Async value :=
  this <- get_splunkService ;;
  match this with
  | None => reject (Error "Splunk service not initialized")
  | Some svc =>
      r <- request (CFetchIndexes svc) (indexes_fetch sdk svc) ;;
      match r with
      | (Some err, _) => reject err
      | (None, Some indexes) =>
          resolve (VArr (project_index <$> Indexes.list indexes))
      | (None, None) => resolve VUndefined
      end
  end.

Definition dispatch_options (earliestTime latestTime : option string)
  : gmap string value :=
  let o : gmap string value := ∅ in
  let o := if truthy earliestTime
           then <[ "earliest_time" := of_optional earliestTime ]> o else o in
  if truthy latestTime
  then <[ "latest_time" := of_optional latestTime ]> o else o.

(** Below the [fetch] callback everything runs inside SDK callbacks:
    an absent job at [job.track] is thrown there, not rejected. *)
Definition runSavedSearch (name : string) (earliestTime latestTime : option string)
  : Async value :=
  this <- get_splunkService ;;
  match this with
  | None => reject (Error "Splunk service not initialized")
  | Some svc =>
      r <- request (CFetchSavedSearches svc) (savedSearches_fetch sdk svc) ;;
      match r with
      | (Some err, _) => reject err
      | (None, savedSearches) =>
          match savedSearches ≫= (λ c, SavedSearches.item c name) with
          | None => reject (Error ("Saved search '" +:+ name +:+ "' not found"))
          | Some savedSearch =>
              let dispatchOptions := dispatch_options earliestTime latestTime in
              d <- request (CDispatch savedSearch dispatchOptions)
                           (dispatch sdk savedSearch dispatchOptions) ;;
              match d with
              | (Some err, _) => reject err
              | (None, None) => uncaught (TypeError_reading "track")
              | (None, Some job) => track_then_results job "json"
              end
          end
      end
  end.

Definition project_server_info (info : option ServerInfo.t) : value :=
  let props := ServerInfo.properties <$> info in
  VObj [ ("version", of_optional (ServerInfo.version <$> props));
         ("build", of_optional (ServerInfo.build <$> props));
         ("serverName", of_optional (ServerInfo.serverName <$> props));
         ("licenseState", of_optional (ServerInfo.licenseState <$> props));
         ("mode", of_optional (ServerInfo.mode <$> props)) ].

Definition getServerInfo : Async value :=
  this <- get_splunkService ;;
  match this with
  | None => reject (Error "Splunk service not initialized")
  | Some svc =>
      r <- request (CServerInfo svc) (serverInfo sdk svc) ;;
      match r with
      | (Some err, _) => reject err
      | (None, info) => resolve (project_server_info info)
      end
  end.

(** [if (!this.splunkService) throw new Error(...)] *)
Definition require_service (e : JsError) : Async unit :=
  this <- get_splunkService ;;
  match this with
  | None => reject e
  | Some _ => resolve tt
  end.

(** *** Tool handlers, [setupTools] *)

Definition search_params (a : SearchArgs.t) : gmap string value :=
  let query := SearchArgs.query a in
  let searchParams : gmap string value :=
    {[ "search" := VStr (if startsWith query "search" then query else "search " +:+ query);
       "output_mode" := VStr (SearchArgs.output_mode a);
       "count" := VNum (SearchArgs.max_count a) ]} in
  let searchParams :=
    if truthy (SearchArgs.earliest_time a)
    then <[ "earliest_time" := of_optional (SearchArgs.earliest_time a) ]> searchParams
    else searchParams in
  if truthy (SearchArgs.latest_time a)
  then <[ "latest_time" := of_optional (SearchArgs.latest_time a) ]> searchParams
  else searchParams.

Definition search_handler (a : SearchArgs.t) : Async CallToolResult :=
  try_catch
    (require_service not_initialized ;;;
     searchJob <- runSearch (search_params a) ;;
     results <- getSearchResults searchJob (SearchArgs.output_mode a) ;;
     resolve (text_result
                match results with
                | VStr s => Str s
                | _ => Stringify results
                end))
    (λ error, resolve (error_result "Error executing search: " error)).

Definition configure_handler (config : SplunkConfig.t) : Async CallToolResult :=
  try_catch
    (configureSplunkConnection config ;;;
     resolve (text_result
                (Cat (Str ("Successfully connected to Splunk at "
                             +:+ SplunkConfig.scheme config +:+ "://"
                             +:+ SplunkConfig.host config +:+ ":"))
                     (OfNumber (SplunkConfig.port config)))))
    (λ error, resolve (error_result "Failed to connect to Splunk: " error)).

Definition list_saved_searches_handler (_ : unit) : Async CallToolResult :=
  try_catch
    (require_service not_initialized ;;;
     savedSearches <- getSavedSearches ;;
     resolve (text_result (Stringify savedSearches)))
    (λ error, resolve (error_result "Error listing saved searches: " error)).

Definition list_indexes_handler (_ : unit) : Async CallToolResult :=
  try_catch
    (require_service not_initialized ;;;
     indexes <- getIndexes ;;
     resolve (text_result (Stringify indexes)))
    (λ error, resolve (error_result "Error listing indexes: " error)).

Definition run_saved_search_handler (a : RunSavedSearchArgs.t) : Async CallToolResult :=
  try_catch
    (require_service not_initialized ;;;
     results <- runSavedSearch (RunSavedSearchArgs.name a)
                               (RunSavedSearchArgs.earliest_time a)
                               (RunSavedSearchArgs.latest_time a) ;;
     resolve (text_result (Stringify results)))
    (λ error, resolve (error_result "Error running saved search: " error)).

(** The five registrations. *)
Definition search_tool := tool "search" search_schema search_handler.
Definition configure_tool := tool "configure" configure_schema configure_handler.
Definition list_saved_searches_tool :=
  tool "list_saved_searches" empty_schema list_saved_searches_handler.
Definition list_indexes_tool := tool "list_indexes" empty_schema list_indexes_handler.
Definition run_saved_search_tool :=
  tool "run_saved_search" run_saved_search_schema run_saved_search_handler.

(** *** Resources, [setupResources] *)

Definition resource_text (uri : string) (t : Text) : ReadResourceResult :=
  {| contents := [ {| ResourceContents.uri := uri; ResourceContents.text := t |} ] |}.

Definition connection_status : Async ReadResourceResult :=
  this <- get_splunkService ;;
  resolve (resource_text "splunk://status"
             (Str (if this is Some _ then "Connected" else "Not connected"))).

Definition server_info : Async ReadResourceResult :=
  try_catch
    (require_service (Error "Splunk service not initialized") ;;;
     info <- getServerInfo ;;
     resolve (resource_text "splunk://info" (Stringify info)))
    (λ error,
       resolve (resource_text "splunk://info"
                  (Str ("Error getting server info: " +:+ message error)))).

End SplunkMCPServer.

(** The operations as one type, for statements that range over them. *)
Inductive ToolCall :=
  | Search (a : SearchArgs.t)
  | Configure (a : SplunkConfig.t)
  | ListSavedSearches
  | ListIndexes
  | RunSavedSearch (a : RunSavedSearchArgs.t).

Definition handler (sdk : Backend) (c : ToolCall) : Async CallToolResult :=
  match c with
  | Search a => search_handler sdk a
  | Configure a => configure_handler sdk a
  | ListSavedSearches => list_saved_searches_handler sdk tt
  | ListIndexes => list_indexes_handler sdk tt
  | RunSavedSearch a => run_saved_search_handler sdk a
  end.

(** The message prefix of each tool's [catch] branch. *)
Definition error_prefix (c : ToolCall) : string :=
  match c with
  | Search _ => "Error executing search: "
  | Configure _ => "Failed to connect to Splunk: "
  | ListSavedSearches => "Error listing saved searches: "
  | ListIndexes => "Error listing indexes: "
  | RunSavedSearch _ => "Error running saved search: "
  end.

Definition is_configure (c : ToolCall) : bool :=
  match c with Configure _ => true | _ => false end.

Inductive Resource := ConnectionStatus | ServerInfoResource.

Definition read_resource (sdk : Backend) (r : Resource) : Async ReadResourceResult :=
  match r with
  | ConnectionStatus => connection_status
  | ServerInfoResource => server_info sdk
  end.

(** The initial state of a fresh server. *)
Definition initial : State := {| splunkService := None; calls := [] |}.

(** The calls issued between two states. *)
Definition issued (st st' : State) : list Call :=
  drop (length (calls st)) (calls st').

(** The [err?] argument the SDK answers a call with. *)
Definition call_error (sdk : Backend) (c : Call) : option JsError :=
  match c with
  | CLogin svc => login sdk svc
  | CSearch svc query params => (search sdk svc query params).1
  | CTrack job opts => track sdk job opts
  | CResults job opts => (results sdk job opts).1
  | CFetchSavedSearches svc => (savedSearches_fetch sdk svc).1
  | CFetchIndexes svc => (indexes_fetch sdk svc).1
  | CDispatch saved opts => (dispatch sdk saved opts).1
  | CServerInfo svc => (serverInfo sdk svc).1
  end.

(** ** The session as a state machine *)

Inductive Session := Unset | Authenticating | Ready.

(** The session is authenticating while a [login] callback is awaited;
    otherwise it is what the field holds. *)
Definition session (login_pending : bool) (st : State) : Session :=
  if login_pending then Authenticating
  else if splunkService st is Some _ then Ready else Unset.

(** ** Operations and responses as the protocol sees them *)

Inductive Operation :=
  | Tool (c : ToolCall)
  | Read (r : Resource).

Inductive Response :=
  | ToolResponse (r : CallToolResult)
  | ResourceResponse (r : ReadResourceResult).

Definition fmap_async {A B} (f : A → B) (m : Async A) : Async B :=
  x <- m ;; resolve (f x).

Definition perform (sdk : Backend) (op : Operation) : Async Response :=
  match op with
  | Tool c => fmap_async ToolResponse (handler sdk c)
  | Read r => fmap_async ResourceResponse (read_resource sdk r)
  end.

(** A response carries an error indicator when it has [isError: true];
    a resource response has no such field. *)
Definition error_indicator (r : Response) : bool :=
  match r with
  | ToolResponse r => bool_decide (isError r = Some true)
  | ResourceResponse _ => false
  end.

(** The operations that check the session before anything else. *)
Definition needs_session (op : Operation) : bool :=
  match op with
  | Tool c => negb (is_configure c)
  | Read ConnectionStatus => false
  | Read ServerInfoResource => true
  end.

(** Shape of a projected record. *)
Definition keys (v : value) : list string :=
  match v with
  | VObj fields => fields.*1
  | _ => []
  end.

Definition field (v : value) (k : string) : value :=
  match v with
  | VObj fields => default VUndefined (snd <$> find (λ kv, String.eqb kv.1 k) fields)
  | _ => VUndefined
  end.

(** The directive the [search] handler writes in front of a query, in
    the template [`search ${query}`]. *)
Definition default_directive : string := "search ".

(** The spec's condition, in its words: the query text already starts
    with the default search directive.  The handler's own test is
    [startsWith query "search"]. *)
Definition starts_with_directive (query : string) : bool :=
  String.prefix default_directive query.

(** The text the spec's sentence wants submitted: the query behind the
    directive unless it starts with one, the query unchanged otherwise. *)
Definition submitted_by_spec (query : string) : string :=
  if starts_with_directive query then query else default_directive +:+ query.

(** The [Service] object a call is a method of, for the calls that are
    methods of one ([job.track], [job.results] and [savedSearch.dispatch]
    are methods of what the service handed out). *)
Definition call_service (c : Call) : option Service :=
  match c with
  | CLogin svc | CSearch svc _ _ | CFetchSavedSearches svc
  | CFetchIndexes svc | CServerInfo svc => Some svc
  | CTrack _ _ | CResults _ _ | CDispatch _ _ => None
  end.

Definition is_login (c : Call) : bool :=
  match c with CLogin _ => true | _ => false end.

(** The URI each resource is registered under. *)
Definition resource_uri (r : Resource) : string :=
  match r with
  | ConnectionStatus => "splunk://status"
  | ServerInfoResource => "splunk://info"
  end.

(** ** A test double of the SDK

    After [MockSplunkService] of the repository's test script, with a
    second saved search and a switch for failing logins. *)
Module Mock.
Definition job : SearchJob := {| sid := 1 |}.

Definition mockResults : value :=
  VArr [ VObj [("_time", VStr "2024-01-01T10:00:00"); ("host", VStr "server1");
               ("message", VStr "Test log entry 1")];
         VObj [("_time", VStr "2024-01-01T10:01:00"); ("host", VStr "server2");
               ("message", VStr "Test log entry 2")] ].

Definition daily_error_report : SavedSearch.t :=
  {| SavedSearch.name := "Daily Error Report";
     SavedSearch.properties :=
       {| SavedSearch.search := "index=main level=ERROR | stats count by source";
          SavedSearch.description := "Daily error summary";
          SavedSearch.dispatch :=
            Some {| SavedSearch.earliest_time := Some "-24h";
                    SavedSearch.latest_time := Some "now" |} |} |}.

Definition login_audit : SavedSearch.t :=
  {| SavedSearch.name := "Login Audit";
     SavedSearch.properties :=
       {| SavedSearch.search := "index=_audit action=login | stats count by user";
          SavedSearch.description := "Logins per user";
          SavedSearch.dispatch := None |} |}.

Definition mockSearches : SavedSearches.t :=
  {| SavedSearches.entities := [daily_error_report; login_audit] |}.

Definition mockIndexes : Indexes.t :=
  {| Indexes.entities :=
       [ {| Index.name := "main";
            Index.properties := {| Index.totalEventCount := 1000000;
                                   Index.currentDBSizeMB := 1024;
                                   Index.maxDataSize := "auto" |} |};
         {| Index.name := "_internal";
            Index.properties := {| Index.totalEventCount := 500000;
                                   Index.currentDBSizeMB := 512;
                                   Index.maxDataSize := "auto" |} |} ] |}.

Definition mockInfo : ServerInfo.t :=
  {| ServerInfo.properties :=
       {| ServerInfo.version := "8.2.0"; ServerInfo.build := "12345";
          ServerInfo.serverName := "test-splunk"; ServerInfo.licenseState := "OK";
          ServerInfo.mode := "normal" |} |}.

(** [accepts] tells whether [login] succeeds. *)
Definition service (accepts : bool) : Backend :=
  {| login := λ _, if accepts then None else Some (Error "Login failed");
     search := λ _ _ _, (None, Some job);
     track := λ _ _, None;
     results := λ _ _, (None, mockResults);
     savedSearches_fetch := λ _, (None, Some mockSearches);
     indexes_fetch := λ _, (None, Some mockIndexes);
     dispatch := λ _ _, (None, Some job);
     serverInfo := λ _, (None, Some mockInfo) |}.

(** A backend whose list fetches call back with neither error nor
    collection. *)
Definition silent : Backend :=
  {| login := λ _, None;
     search := λ _ _ _, (None, None);
     track := λ _ _, None;
     results := λ _ _, (None, VUndefined);
     savedSearches_fetch := λ _, (None, None);
     indexes_fetch := λ _, (None, None);
     dispatch := λ _ _, (None, None);
     serverInfo := λ _, (None, None) |}.

(** A backend that reports success but hands over no job. *)
Definition jobless : Backend :=
  {| login := λ _, None;
     search := λ _ _ _, (None, None);
     track := λ _ _, None;
     results := λ _ _, (None, mockResults);
     savedSearches_fetch := λ _, (None, Some mockSearches);
     indexes_fetch := λ _, (None, Some mockIndexes);
     dispatch := λ _ _, (None, None);
     serverInfo := λ _, (None, Some mockInfo) |}.

(** A request for a saved search the test double has. *)
Definition daily : RunSavedSearchArgs.t :=
  {| RunSavedSearchArgs.name := "Daily Error Report";
     RunSavedSearchArgs.earliest_time := Some "-7d";
     RunSavedSearchArgs.latest_time := None |}.

(** A backend on which every call reports an error. *)
Definition down : Backend :=
  let e := Error "connect ECONNREFUSED" in
  {| login := λ _, Some e;
     search := λ _ _ _, (Some e, None);
     track := λ _ _, Some e;
     results := λ _ _, (Some e, VUndefined);
     savedSearches_fetch := λ _, (Some e, None);
     indexes_fetch := λ _, (Some e, None);
     dispatch := λ _ _, (Some e, None);
     serverInfo := λ _, (Some e, None) |}.

Definition config : SplunkConfig.t :=
  {| SplunkConfig.host := "localhost"; SplunkConfig.port := 8089;
     SplunkConfig.username := "admin"; SplunkConfig.password := "changeme";
     SplunkConfig.scheme := "https" |}.

Definition searchArgs : SearchArgs.t :=
  {| SearchArgs.query := "index=_internal | head 10";
     SearchArgs.earliest_time := Some "-1h";
     SearchArgs.latest_time := Some "now";
     SearchArgs.max_count := 10;
     SearchArgs.output_mode := "json" |}.

(** The raw arguments [searchArgs] is parsed from; [output_mode] is
    left out. *)
Definition arguments : gmap string value :=
  {[ "query" := VStr "index=_internal | head 10";
     "earliest_time" := VStr "-1h";
     "latest_time" := VStr "now";
     "max_count" := VNum 10 ]}.

(** [configure] arguments that leave [port] and [scheme] out, as the
    test script's valid configuration does. *)
Definition minimal_configuration : gmap string value :=
  {[ "host" := VStr "localhost";
     "username" := VStr "admin";
     "password" := VStr "secret" ]}.

(** [search] arguments with the query alone. *)
Definition bare_query : gmap string value :=
  {[ "query" := VStr "index=main | head 10" ]}.

(** A search for three plain words, the first of which begins with the
    letters of the directive. *)
Definition searching : SearchArgs.t :=
  {| SearchArgs.query := "searching for errors";
     SearchArgs.earliest_time := None;
     SearchArgs.latest_time := None;
     SearchArgs.max_count := 100;
     SearchArgs.output_mode := "json" |}.

(** A search whose earliest bound is the empty string. *)
Definition empty_bound : SearchArgs.t :=
  {| SearchArgs.query := "search index=main";
     SearchArgs.earliest_time := Some "";
     SearchArgs.latest_time := Some "now";
     SearchArgs.max_count := 50;
     SearchArgs.output_mode := "csv" |}.

(** A request for a saved search the test double does not have. *)
Definition weekly_report : RunSavedSearchArgs.t :=
  {| RunSavedSearchArgs.name := "Weekly Report";
     RunSavedSearchArgs.earliest_time := None;
     RunSavedSearchArgs.latest_time := None |}.

(** The state after a successful [configure]. *)
Definition connected : State :=
  {| splunkService := Some (service_of config);
     calls := [CLogin (service_of config)] |}.
End Mock.

(** ** Sanity checks on the test double *)

Example configure_then_connected :
  (configure_handler (Mock.service true) Mock.config initial).2 = Mock.connected.
Proof. reflexivity. Qed.

Example search_on_mock :
  (search_tool (Mock.service true)
     {[ "query" := VStr "index=_internal | head 10"; "max_count" := VNum 10 ]}
     Mock.connected).1
  = Resolved (text_result (Stringify Mock.mockResults)).
Proof. vm_compute. reflexivity. Qed.

Example arguments_parse :
  search_schema Mock.arguments = Some Mock.searchArgs.
Proof. vm_compute. reflexivity. Qed.

Example run_saved_search_on_mock :
  handler (Mock.service true) (RunSavedSearch Mock.daily) Mock.connected
  = (Resolved (text_result (Stringify Mock.mockResults)),
     {| splunkService := Some (service_of Mock.config);
        calls := [ CLogin (service_of Mock.config);
                   CFetchSavedSearches (service_of Mock.config);
                   CDispatch Mock.daily_error_report {[ "earliest_time" := VStr "-7d" ]};
                   CTrack Mock.job ∅;
                   CResults Mock.job {[ "output_mode" := VStr "json" ]} ] |}).
Proof. vm_compute. reflexivity. Qed.

(** An absent job: [search] reads [job.track] inside its promise and
    answers with the error; [run_saved_search] reads it inside the
    dispatch callback, and the exception is nobody's to catch. *)
Example search_without_job :
  (handler Mock.jobless (Search Mock.searchArgs) Mock.connected).1
  = Resolved (error_result "Error executing search: " (TypeError_reading "track")).
Proof. reflexivity. Qed.

Example run_saved_search_without_job :
  (handler Mock.jobless (RunSavedSearch Mock.daily) Mock.connected).1
  = Uncaught (TypeError_reading "track").
Proof. reflexivity. Qed.

Example status_on_mock :
  (connection_status Mock.connected).1
  = Resolved (resource_text "splunk://status" (Str "Connected")).
Proof. reflexivity. Qed.

(** ** Proof support *)

Lemma issued_app st cs svc :
  issued st {| splunkService := svc; calls := calls st ++ cs |} = cs.
Proof. unfold issued. simpl. apply drop_app_length. Qed.

Lemma issued_refl st : issued st st = [].
Proof. unfold issued. apply drop_all. Qed.

(** Unfold the monad until a handler is a plain case analysis. *)
Ltac run :=
  unfold handler, read_resource, perform, fmap_async,
    search_handler, configure_handler, list_saved_searches_handler,
    list_indexes_handler, run_saved_search_handler, connection_status, server_info,
    configureSplunkConnection, configure_executor, login_callback,
    runSearch, getSearchResults, getSavedSearches, getIndexes,
    runSavedSearch, track_then_results, getServerInfo, require_service,
    try_catch, bind, get_splunkService, set_splunkService, request, resolve, reject,
    uncaught in *;
  simpl in *.

(** * Session checks *)

(** The guard at the head of every data-access handler. *)
Lemma handler_without_session sdk c st :
  is_configure c = false →
  splunkService st = None →
  handler sdk c st = (Resolved (error_result (error_prefix c) not_initialized), st).
Proof.
  intros Hc Hst. destruct c; try discriminate Hc; run; by rewrite Hst.
Qed.

(** C1: a data-access tool ([search], [list_saved_searches], [list_indexes],
    [run_saved_search]) invoked while [splunkService] is null answers
    with the session-state error response and leaves the state, hence the
    log of external calls, as it was. *)
Theorem unset_session_is_reported sdk c st :
  is_configure c = false →
  splunkService st = None →
  handler sdk c st = (Resolved (error_result (error_prefix c) not_initialized), st)
  ∧ issued st (handler sdk c st).2 = [].
Proof.
  intros Hc Hst. rewrite (handler_without_session sdk c st Hc Hst).
  split; [done | apply issued_refl].
Qed.

Lemma unset_session_is_reported_witness :
  handler (Mock.service true) ListIndexes initial
  = (Resolved (error_result "Error listing indexes: " not_initialized), initial)
  ∧ issued initial (handler (Mock.service true) ListIndexes initial).2 = [].
Proof.
  apply (unset_session_is_reported (Mock.service true) ListIndexes initial);
    reflexivity.
Defined.

(** * The session state machine *)

(** C2: from any state, [configure] assigns a fresh handle (replacing the
    one held) and issues [login]: the session is Authenticating.  When
    the login callback carries no error the handle stays set (Ready);
    when it carries one the handle is cleared (Unset), the tool answers
    with the error, and a [search] from there fails with the
    session-state error. *)
Theorem configure_state_machine sdk config st :
  let svc := service_of config in
  let st1 := {| splunkService := Some svc; calls := calls st ++ [CLogin svc] |} in
  let st2 := {| splunkService := None; calls := calls st ++ [CLogin svc] |} in
  configure_executor config st = (Resolved svc, st1)
  ∧ session true st1 = Authenticating
  ∧ match login sdk svc with
    | None =>
        (∃ r, handler sdk (Configure config) st = (Resolved r, st1) ∧ isError r = None)
        ∧ session false st1 = Ready
    | Some e =>
        handler sdk (Configure config) st
        = (Resolved (error_result "Failed to connect to Splunk: " e), st2)
        ∧ session false st2 = Unset
        ∧ ∀ sdk' a,
            handler sdk' (Search a) st2
            = (Resolved (error_result "Error executing search: " not_initialized), st2)
    end.
Proof.
  intros svc st1 st2. split; [reflexivity|]. split; [reflexivity|].
  destruct (login sdk svc) as [e|] eqn:Hlogin.
  - split; [|split; [reflexivity|]].
    + run. fold svc. by rewrite Hlogin.
    + intros sdk' a. by run.
  - split; [|reflexivity].
    eexists. split; [run; fold svc; rewrite Hlogin; reflexivity | reflexivity].
Qed.

(** * Validation *)

(** C3: a [search] invocation whose [max_count] is a number below 1 or
    above 10000 is refused by the schema; the handler does not run, so
    the state and the log of external calls are untouched. *)
Theorem max_count_out_of_range_rejected sdk args x st :
  args !! "max_count" = Some (VNum x) →
  PrimFloat.ltb x 1 = true ∨ PrimFloat.ltb 10000 x = true →
  search_schema args = None
  ∧ search_tool sdk args st = (Rejected (invalid_params "search"), st).
Proof.
  intros Hx Hout.
  assert (search_schema args = None) as Hparse.
  { assert (prop args "max_count" = VNum x) as Hprop by (unfold prop; by rewrite Hx).
    unfold search_schema. rewrite Hprop.
    destruct (z_string _); simpl; [|done].
    destruct (z_optional z_string (prop args "earliest_time")); simpl; [|done].
    destruct (z_optional z_string (prop args "latest_time")); simpl; [|done].
    unfold z_max, z_min, z_number.
    destruct (PrimFloat.eqb x x); simpl; [|done].
    destruct Hout as [-> | Hbig]; simpl; [done|].
    destruct (PrimFloat.ltb x 1); simpl; [done|]. by rewrite Hbig. }
  split; [done|]. unfold search_tool, tool. by rewrite Hparse.
Qed.

Lemma max_count_out_of_range_rejected_witness :
  search_schema {[ "query" := VStr "index=main"; "max_count" := VNum 15000 ]} = None
  ∧ search_tool (Mock.service true)
      {[ "query" := VStr "index=main"; "max_count" := VNum 15000 ]} Mock.connected
    = (Rejected (invalid_params "search"), Mock.connected).
Proof.
  apply (max_count_out_of_range_rejected (Mock.service true) _ 15000%float Mock.connected).
  - reflexivity.
  - right. reflexivity.
Defined.

(** * Failures at the operation boundary *)

(** Reduce [issued] over the concrete logs that [run] leaves. *)
Ltac issued_simpl :=
  unfold issued in *; simpl in *;
  rewrite <- ?app_assoc in *; rewrite ?drop_app_length, ?drop_all in *;
  simpl in *.

(** Case analysis on the session field and on one answer of the SDK. *)
Ltac answer :=
  match goal with
  | |- context [splunkService ?st] => is_var st; destruct (splunkService st) eqn:?
  | |- context [login ?s ?a] => destruct (login s a) eqn:?
  | |- context [search ?s ?a ?b ?c] => destruct (search s a b c) as [[?|] [?|]] eqn:?
  | |- context [track ?s ?a ?b] => destruct (track s a b) eqn:?
  | |- context [results ?s ?a ?b] => destruct (results s a b) as [[?|] ?] eqn:?
  | |- context [savedSearches_fetch ?s ?a] =>
      destruct (savedSearches_fetch s a) as [[?|] [?|]] eqn:?
  | |- context [indexes_fetch ?s ?a] =>
      destruct (indexes_fetch s a) as [[?|] [?|]] eqn:?
  | |- context [dispatch ?s ?a ?b] => destruct (dispatch s a b) as [[?|] [?|]] eqn:?
  | |- context [serverInfo ?s ?a] => destruct (serverInfo s a) as [[?|] ?] eqn:?
  | |- context [SavedSearches.item ?c ?n] => destruct (SavedSearches.item c n) eqn:?
  end; simpl.

(** Bring the recorded answers to bear on the other hypotheses. *)
Ltac use_answers :=
  simplify_eq/=;
  repeat match goal with
         | H : ?x = _, H' : context [?x] |- _ => rewrite H in H'; simpl in H'
         end;
  simplify_eq/=.

(** Run a handler through every behaviour of the SDK. *)
Ltac answers :=
  unfold issued; run; repeat answer; intros; issued_simpl; use_answers.

(** C4, as stated, fails on the [server_info] resource: read with no
    session, it answers with the error text and nothing that marks the
    response as an error. *)
Lemma server_info_error_has_no_indicator :
  needs_session (Read ServerInfoResource) = true
  ∧ splunkService initial = None
  ∧ perform (Mock.service true) (Read ServerInfoResource) initial
    = (Resolved (ResourceResponse
         (resource_text "splunk://info"
            (Str "Error getting server info: Splunk service not initialized"))),
       initial)
  ∧ error_indicator
      (ResourceResponse
         (resource_text "splunk://info"
            (Str "Error getting server info: Splunk service not initialized")))
    = false.
Proof. repeat split. Qed.

(** C4 (amended): no rejection leaves a tool handler.  A missing session,
    or an error reported by the last SDK call the handler issued, becomes
    a response whose text is the tool's prefix followed by the error's
    message and whose [isError] is [true].  The [server_info] resource
    turns the same failures into an error text with no error indicator,
    and the status resource always answers. *)
Theorem failures_become_error_responses sdk st :
  (∀ c,
     let out := handler sdk c st in
     (∀ e, out.1 ≠ Rejected e)
     ∧ (∀ e, (is_configure c = false ∧ splunkService st = None ∧ e = not_initialized)
             ∨ (∃ k, last (issued st out.2) = Some k ∧ call_error sdk k = Some e) →
          ∃ r, out.1 = Resolved r
               ∧ content r = [text_content (Str (error_prefix c +:+ message e))]
               ∧ isError r = Some true))
  ∧ (let out := read_resource sdk ServerInfoResource st in
     (∀ e, out.1 ≠ Rejected e)
     ∧ (∀ e, (splunkService st = None ∧ e = Error "Splunk service not initialized")
             ∨ (∃ k, last (issued st out.2) = Some k ∧ call_error sdk k = Some e) →
          out.1 = Resolved (resource_text "splunk://info"
                              (Str ("Error getting server info: " +:+ message e)))))
  ∧ (∃ r, read_resource sdk ConnectionStatus st = (Resolved r, st)).
Proof.
  split; [|split].
  - intros c out. subst out. split.
    + intros e. destruct c; answers; done.
    + intros e [(Hc & Hst & ->) | (k & Hlast & Herr)].
      * exists (error_result (error_prefix c) not_initialized).
        split; [|split; reflexivity].
        by rewrite (handler_without_session sdk c st Hc Hst).
      * exists (error_result (error_prefix c) e).
        split; [|split; reflexivity].
        revert Hlast Herr. destruct c; answers; done.
  - split.
    + intros e. answers; done.
    + intros e [(Hst & ->) | (k & Hlast & Herr)].
      * run. by rewrite Hst.
      * revert Hlast Herr. answers; done.
  - eexists. reflexivity.
Qed.

Lemma failures_become_error_responses_witness :
  ∃ r, (handler Mock.down ListIndexes Mock.connected).1 = Resolved r
       ∧ content r = [text_content (Str "Error listing indexes: connect ECONNREFUSED")]
       ∧ isError r = Some true.
Proof.
  destruct (failures_become_error_responses Mock.down Mock.connected) as [Htools _].
  destruct (Htools ListIndexes) as [_ H].
  apply (H (Error "connect ECONNREFUSED")).
  right. exists (CFetchIndexes (service_of Mock.config)). split; reflexivity.
Defined.

(** * The session field is written by [configure] only *)

(** C5: a tool other than [configure], and either resource, leaves
    [splunkService] as it found it.  An SDK call that reports an error is
    the last call the operation issues (nothing is retried) and its error
    is the one answered.  [configure] clears the field when [login]
    reports an error. *)
Theorem session_written_by_configure_only sdk st :
  (∀ c, is_configure c = false →
     let out := handler sdk c st in
     splunkService out.2 = splunkService st
     ∧ ∀ i k e,
         issued st out.2 !! i = Some k → call_error sdk k = Some e →
         S i = length (issued st out.2)
         ∧ out.1 = Resolved (error_result (error_prefix c) e))
  ∧ (∀ r,
       let out := read_resource sdk r st in
       splunkService out.2 = splunkService st
       ∧ ∀ i k e,
           issued st out.2 !! i = Some k → call_error sdk k = Some e →
           S i = length (issued st out.2))
  ∧ (∀ config e, login sdk (service_of config) = Some e →
       let out := handler sdk (Configure config) st in
       out = (Resolved (error_result "Failed to connect to Splunk: " e),
              {| splunkService := None;
                 calls := calls st ++ [CLogin (service_of config)] |})).
Proof.
  split; [|split].
  - intros c Hc out. subst out. split.
    + destruct c; try discriminate Hc; answers; done.
    + intros i k e. destruct c; try discriminate Hc; answers;
        repeat (destruct i as [|i]; use_answers); done.
  - intros r out. subst out. split.
    + destruct r; answers; done.
    + intros i k e. destruct r; answers;
        repeat (destruct i as [|i]; use_answers); done.
  - intros config e Hlogin. run. by rewrite Hlogin.
Qed.

Lemma session_written_by_configure_only_witness :
  (splunkService (handler Mock.down (Search Mock.searchArgs) Mock.connected).2
   = splunkService Mock.connected
   ∧ 1 = length (issued Mock.connected
                   (handler Mock.down (Search Mock.searchArgs) Mock.connected).2))
  ∧ handler Mock.down (Configure Mock.config) Mock.connected
    = (Resolved (error_result "Failed to connect to Splunk: "
                   (Error "connect ECONNREFUSED")),
       {| splunkService := None;
          calls := calls Mock.connected ++ [CLogin (service_of Mock.config)] |}).
Proof.
  destruct (session_written_by_configure_only Mock.down Mock.connected)
    as (Htools & _ & Hconfigure).
  split.
  - destruct (Htools (Search Mock.searchArgs) eq_refl) as [Hframe Hlast].
    split; [exact Hframe|].
    eapply (Hlast 0); reflexivity.
  - apply (Hconfigure Mock.config (Error "connect ECONNREFUSED")). reflexivity.
Defined.

(** * Saved searches *)

Lemma item_absent c name :
  name ∉ SavedSearch.name <$> SavedSearches.list c →
  SavedSearches.item c name = None.
Proof.
  unfold SavedSearches.item, SavedSearches.list.
  induction (SavedSearches.entities c) as [|s l IH]; simpl; [done|].
  rewrite not_elem_of_cons. intros [Hne Hl].
  destruct (String.eqb_spec (SavedSearch.name s) name) as [Heq|_]; [congruence|].
  by apply IH.
Qed.

(** C6: with a session, after a fetch that reports no error, running a
    saved search whose name none of the fetched entities bears answers
    with the "not found" error, and the fetch is the only call issued:
    nothing is dispatched. *)
Theorem unknown_saved_search_not_dispatched sdk a st svc fetched :
  splunkService st = Some svc →
  savedSearches_fetch sdk svc = (None, fetched) →
  (∀ c, fetched = Some c →
        RunSavedSearchArgs.name a ∉ SavedSearch.name <$> SavedSearches.list c) →
  handler sdk (RunSavedSearch a) st
  = (Resolved
       (error_result "Error running saved search: "
          (Error ("Saved search '" +:+ RunSavedSearchArgs.name a +:+ "' not found"))),
     {| splunkService := Some svc; calls := calls st ++ [CFetchSavedSearches svc] |})
  ∧ issued st (handler sdk (RunSavedSearch a) st).2 = [CFetchSavedSearches svc].
Proof.
  intros Hst Hfetch Habsent.
  assert (fetched ≫= (λ c, SavedSearches.item c (RunSavedSearchArgs.name a)) = None)
    as Hitem.
  { destruct fetched as [c|]; simpl; [|done]. by apply item_absent, Habsent. }
  assert (handler sdk (RunSavedSearch a) st
          = (Resolved
               (error_result "Error running saved search: "
                  (Error ("Saved search '" +:+ RunSavedSearchArgs.name a
                            +:+ "' not found"))),
             {| splunkService := Some svc;
                calls := calls st ++ [CFetchSavedSearches svc] |})) as ->.
  { run. by repeat (rewrite ?Hst, ?Hfetch, ?Hitem; simpl). }
  split; [done|]. apply issued_app.
Qed.

Lemma unknown_saved_search_not_dispatched_witness :
  handler (Mock.service true) (RunSavedSearch Mock.weekly_report) Mock.connected
  = (Resolved
       (error_result "Error running saved search: "
          (Error "Saved search 'Weekly Report' not found")),
     {| splunkService := Some (service_of Mock.config);
        calls := calls Mock.connected ++ [CFetchSavedSearches (service_of Mock.config)] |})
  ∧ issued Mock.connected
      (handler (Mock.service true) (RunSavedSearch Mock.weekly_report) Mock.connected).2
    = [CFetchSavedSearches (service_of Mock.config)].
Proof.
  apply (unknown_saved_search_not_dispatched (Mock.service true) Mock.weekly_report
           Mock.connected (service_of Mock.config) (Some Mock.mockSearches)).
  - reflexivity.
  - reflexivity.
  - intros c [= <-]. vm_compute. intros H.
    repeat (apply elem_of_cons in H as [H|H]; [discriminate H|]).
    by apply elem_of_nil in H.
Defined.

(** * Projections *)

(** C7: when the fetch delivers a collection, [list_saved_searches]
    answers with an array holding one record per fetched saved search, in
    order, each with the keys name, search, description, earliest_time,
    latest_time and with the item's own name and search text;
    [list_indexes] likewise answers with one record per fetched index,
    with the keys name, totalEventCount, currentDBSizeMB, maxDataSize. *)
Theorem lists_project_every_item sdk st svc :
  splunkService st = Some svc →
  (∀ c, savedSearches_fetch sdk svc = (None, Some c) →
     ∃ records,
       (handler sdk ListSavedSearches st).1
       = Resolved (text_result (Stringify (VArr records)))
       ∧ length records = length (SavedSearches.list c)
       ∧ ∀ i s, SavedSearches.list c !! i = Some s →
           ∃ r, records !! i = Some r
                ∧ keys r = ["name"; "search"; "description"; "earliest_time"; "latest_time"]
                ∧ field r "name" = VStr (SavedSearch.name s)
                ∧ field r "search" = VStr (SavedSearch.search (SavedSearch.properties s)))
  ∧ (∀ c, indexes_fetch sdk svc = (None, Some c) →
       ∃ records,
         (handler sdk ListIndexes st).1
         = Resolved (text_result (Stringify (VArr records)))
         ∧ length records = length (Indexes.list c)
         ∧ ∀ i x, Indexes.list c !! i = Some x →
             ∃ r, records !! i = Some r
                  ∧ keys r = ["name"; "totalEventCount"; "currentDBSizeMB"; "maxDataSize"]
                  ∧ field r "name" = VStr (Index.name x)
                  ∧ field r "totalEventCount"
                    = VNum (Index.totalEventCount (Index.properties x))
                  ∧ field r "currentDBSizeMB"
                    = VNum (Index.currentDBSizeMB (Index.properties x))
                  ∧ field r "maxDataSize"
                    = VStr (Index.maxDataSize (Index.properties x))).
Proof.
  intros Hst. split; intros c Hfetch.
  - exists (project_saved_search <$> SavedSearches.list c). split; [|split].
    + run. by repeat (rewrite ?Hst, ?Hfetch; simpl).
    + apply length_fmap.
    + intros i s Hi. exists (project_saved_search s).
      rewrite list_lookup_fmap, Hi. by repeat split.
  - exists (project_index <$> Indexes.list c). split; [|split].
    + run. by repeat (rewrite ?Hst, ?Hfetch; simpl).
    + apply length_fmap.
    + intros i x Hi. exists (project_index x).
      rewrite list_lookup_fmap, Hi. by repeat split.
Qed.

(** The test double returns two saved searches, and two records come
    back. *)
Lemma lists_project_every_item_witness :
  ∃ records,
    (handler (Mock.service true) ListSavedSearches Mock.connected).1
    = Resolved (text_result (Stringify (VArr records)))
    ∧ length records = 2
    ∧ ∀ i s, SavedSearches.list Mock.mockSearches !! i = Some s →
        ∃ r, records !! i = Some r
             ∧ keys r = ["name"; "search"; "description"; "earliest_time"; "latest_time"]
             ∧ field r "name" = VStr (SavedSearch.name s)
             ∧ field r "search" = VStr (SavedSearch.search (SavedSearch.properties s)).
Proof.
  destruct (lists_project_every_item (Mock.service true) Mock.connected
              (service_of Mock.config) eq_refl) as [Hsaved _].
  exact (Hsaved Mock.mockSearches eq_refl).
Defined.

(** * Search parameters *)

Lemma length_append (s1 s2 : string) :
  String.length (s1 +:+ s2) = String.length s1 + String.length s2.
Proof. induction s1 as [|c s1 IH]; simpl; [done|]. by rewrite IH. Qed.

Lemma directive_changes_query (q : string) : "search " +:+ q ≠ q.
Proof.
  intros H. apply (f_equal String.length) in H.
  rewrite length_append in H. simpl in H. lia.
Qed.

Lemma search_params_search a :
  search_params a !! "search"
  = Some (VStr (if startsWith (SearchArgs.query a) "search"
                then SearchArgs.query a
                else "search " +:+ SearchArgs.query a)).
Proof. unfold search_params. by repeat case_match; simplify_map_eq. Qed.

Lemma search_params_output_mode a :
  search_params a !! "output_mode" = Some (VStr (SearchArgs.output_mode a)).
Proof. unfold search_params. by repeat case_match; simplify_map_eq. Qed.

(** The first call a [search] issues, whatever the SDK answers. *)
Lemma search_issues_search sdk a st svc :
  splunkService st = Some svc →
  ∃ rest,
    issued st (handler sdk (Search a) st).2
    = CSearch svc (prop (search_params a) "search") (search_params a) :: rest.
Proof.
  intros Hst. revert Hst. answers; eauto.
Qed.

(** [startsWith] holds exactly of the texts that begin with the given
    characters. *)
Lemma startsWith_iff (q p : string) :
  startsWith q p = true ↔ ∃ tail, q = p +:+ tail.
Proof.
  unfold startsWith. revert q. induction p as [|c p IH]; intros q.
  - destruct q; simpl; split; eauto.
  - destruct q as [|d q]; simpl.
    + split; [done | by intros [tail Htail]].
    + destruct (Ascii.ascii_dec c d) as [->|Hne].
      * rewrite IH. split; intros [tail Htail]; exists tail.
        -- subst q. reflexivity.
        -- change (String d q = String d (p +:+ tail)) in Htail. by simplify_eq.
      * split; [done|]. intros [tail Htail].
        change (String d q = String c (p +:+ tail)) in Htail. by simplify_eq.
Qed.

(** What [search] submits, for every query and every behaviour of the
    SDK: the query itself when it begins with the six characters
    "search", and the query behind "search " when it does not. *)
Lemma search_submits sdk a st svc :
  splunkService st = Some svc →
  let q := SearchArgs.query a in
  ∃ submitted rest,
    issued st (handler sdk (Search a) st).2
    = CSearch svc (VStr submitted) (search_params a) :: rest
    ∧ search_params a !! "search" = Some (VStr submitted)
    ∧ ((∃ tail, q = "search" +:+ tail) → submitted = q)
    ∧ ((∀ tail, q ≠ "search" +:+ tail) → submitted = "search " +:+ q).
Proof.
  intros Hst q.
  destruct (search_issues_search sdk a st svc Hst) as [rest Hrest].
  pose proof (search_params_search a) as Hsearch. fold q in Hsearch.
  exists (if startsWith q "search" then q else "search " +:+ q), rest.
  split; [|split; [done|split]].
  - rewrite Hrest. unfold prop. by rewrite Hsearch.
  - intros Htail. apply startsWith_iff in Htail. by rewrite Htail.
  - intros Hnone. destruct (startsWith q "search") eqn:Hs; [|done].
    apply startsWith_iff in Hs as [tail Htail]. by destruct (Hnone tail).
Qed.

(** Where the handler's test and the spec's condition part: a query that
    begins with "search" but not with the directive is submitted as it
    is, and the spec's sentence wants a different text. *)
Lemma directive_missed (q : string) :
  startsWith q "search" = true →
  starts_with_directive q = false →
  (if startsWith q "search" then q else "search " +:+ q) = q
  ∧ submitted_by_spec q = "search " +:+ q
  ∧ submitted_by_spec q ≠ q.
Proof.
  intros Hcode Hspec. unfold submitted_by_spec. rewrite Hcode, Hspec.
  split; [done|]. split; [done | apply directive_changes_query].
Qed.

(** Everywhere else the handler submits what the spec's sentence wants. *)
Lemma directive_agreed (q : string) :
  (startsWith q "search" = true → starts_with_directive q = true) →
  (if startsWith q "search" then q else "search " +:+ q) = submitted_by_spec q.
Proof.
  intros Himp. unfold submitted_by_spec.
  destruct (startsWith q "search") eqn:Hcode; [by rewrite Himp|].
  destruct (starts_with_directive q) eqn:Hspec; [|done].
  apply (startsWith_iff q default_directive) in Hspec as [tail ->].
  unfold startsWith in Hcode. discriminate Hcode.
Qed.

(** C8: the claim fails on the query "searching for errors".  The text
    does not start with the search directive, so the claim wants
    "search searching for errors" submitted; the handler's test
    [query.startsWith("search")] holds of it, and the query goes to the
    SDK unprefixed, both as first argument of the call and as [search]
    entry of its parameters. *)
Theorem search_directive_missed_before_longer_word :
  starts_with_directive (SearchArgs.query Mock.searching) = false
  ∧ submitted_by_spec (SearchArgs.query Mock.searching) = "search searching for errors"
  ∧ search_params Mock.searching !! "search" = Some (VStr "searching for errors")
  ∧ ∃ rest,
      issued Mock.connected
        (handler (Mock.service true) (Search Mock.searching) Mock.connected).2
      = CSearch (service_of Mock.config) (VStr "searching for errors")
          (search_params Mock.searching) :: rest.
Proof.
  split; [reflexivity|]. split; [reflexivity|]. split; [reflexivity|].
  eexists. reflexivity.
Qed.

Lemma prop_insert_ne (o : gmap string value) k k' v :
  k ≠ k' → prop (<[k := v]> o) k' = prop o k'.
Proof. intros Hne. unfold prop. by rewrite lookup_insert_ne. Qed.

Lemma prop_insert_eq (o : gmap string value) k v : prop (<[k := v]> o) k = v.
Proof. unfold prop. by rewrite lookup_insert_eq. Qed.

(** What [search_schema] returns is assembled from the five field
    parsers. *)
Lemma search_schema_Some args a :
  search_schema args = Some a →
  z_string (prop args "query") = Some (SearchArgs.query a)
  ∧ z_optional z_string (prop args "earliest_time") = Some (SearchArgs.earliest_time a)
  ∧ z_optional z_string (prop args "latest_time") = Some (SearchArgs.latest_time a)
  ∧ z_default (z_max 10000 (z_min 1 z_number)) (VNum 100) (prop args "max_count")
    = Some (SearchArgs.max_count a)
  ∧ z_default (z_enum ["json"; "csv"; "xml"]) (VStr "json") (prop args "output_mode")
    = Some (SearchArgs.output_mode a).
Proof.
  unfold search_schema. intros H.
  destruct (z_string _); simpl in H; [|done].
  destruct (z_optional z_string (prop args "earliest_time")); simpl in H; [|done].
  destruct (z_optional z_string (prop args "latest_time")); simpl in H; [|done].
  destruct (z_default (z_max _ _) _ _); simpl in H; [|done].
  destruct (z_default (z_enum _) _ _); simpl in H; [|done].
  by simplify_eq.
Qed.

(** C9: for an invocation the schema accepts, an omitted [output_mode]
    is parsed as "json" and a given one is parsed as itself; "csv" and
    "xml" are accepted in place of whatever was given.  With a session,
    the parsed mode is the [output_mode] of the parameters submitted with
    the job and, once the job is tracked, of the options of the result
    fetch. *)
Theorem output_mode_default_and_passthrough sdk args a st svc :
  search_schema args = Some a →
  splunkService st = Some svc →
  let m := SearchArgs.output_mode a in
  let query := prop (search_params a) "search" in
  (args !! "output_mode" = None → m = "json")
  ∧ (∀ s, args !! "output_mode" = Some (VStr s) → m = s)
  ∧ (∀ s, s ∈ ["csv"; "xml"] →
       ∃ a', search_schema (<["output_mode" := VStr s]> args) = Some a'
             ∧ SearchArgs.output_mode a' = s)
  ∧ search_params a !! "output_mode" = Some (VStr m)
  ∧ (∃ rest,
       issued st (search_tool sdk args st).2
       = CSearch svc query (search_params a) :: rest)
  ∧ (∀ job,
       search sdk svc query (search_params a) = (None, Some job) →
       track sdk job ∅ = None →
       issued st (search_tool sdk args st).2
       = [ CSearch svc query (search_params a);
           CTrack job ∅;
           CResults job {[ "output_mode" := VStr m ]} ]).
Proof.
  intros Hparse Hst m query.
  pose proof (search_schema_Some args a Hparse) as (Hq & He & Hl & Hc & Hm).
  assert (search_tool sdk args st = handler sdk (Search a) st) as Htool.
  { unfold search_tool, tool. by rewrite Hparse. }
  rewrite Htool. repeat split.
  - intros Hnone. unfold prop in Hm. rewrite Hnone in Hm. simpl in Hm.
    vm_compute in Hm. injection Hm as Hm. symmetry. exact Hm.
  - intros s Hs. unfold prop in Hm. rewrite Hs in Hm. simpl in Hm.
    unfold z_enum in Hm. case_bool_decide; by simplify_eq.
  - intros s Hs. unfold search_schema.
    rewrite (prop_insert_ne args _ "query"), (prop_insert_ne args _ "earliest_time"),
      (prop_insert_ne args _ "latest_time"), (prop_insert_ne args _ "max_count"),
      prop_insert_eq, Hq, He, Hl, Hc by done.
    assert (z_default (z_enum ["json"; "csv"; "xml"]) (VStr "json") (VStr s) = Some s)
      as ->.
    { unfold z_default, z_enum. rewrite bool_decide_eq_true_2; [done|].
      revert Hs. rewrite !elem_of_cons, elem_of_nil. tauto. }
    simpl. eauto.
  - apply search_params_output_mode.
  - by apply search_issues_search.
  - intros job Hsearch Htrack. subst query m. revert Hst Hsearch Htrack.
    answers; congruence.
Qed.

Lemma output_mode_default_and_passthrough_witness :
  SearchArgs.output_mode Mock.searchArgs = "json"
  ∧ (∃ a', search_schema (<["output_mode" := VStr "csv"]> Mock.arguments) = Some a'
           ∧ SearchArgs.output_mode a' = "csv")
  ∧ issued Mock.connected (search_tool (Mock.service true) Mock.arguments Mock.connected).2
    = [ CSearch (service_of Mock.config) (prop (search_params Mock.searchArgs) "search")
          (search_params Mock.searchArgs);
        CTrack Mock.job ∅;
        CResults Mock.job {[ "output_mode" := VStr "json" ]} ].
Proof.
  destruct (output_mode_default_and_passthrough (Mock.service true) Mock.arguments
              Mock.searchArgs Mock.connected (service_of Mock.config))
    as (Hdefault & _ & Hgiven & _ & _ & Hflow).
  - vm_compute. reflexivity.
  - reflexivity.
  - split; [|split].
    + apply Hdefault. vm_compute. reflexivity.
    + apply (Hgiven "csv"). constructor.
    + apply (Hflow Mock.job); reflexivity.
Defined.

(** * A fetch that delivers nothing *)

(** C10: with a session, when the fetch callback carries neither an
    error nor a collection, [getSavedSearches] and [getIndexes] resolve
    with [undefined], and the two list tools answer with the
    serialisation of [undefined] and no [isError] field. *)
Theorem absent_collection_is_success sdk st svc :
  splunkService st = Some svc →
  (savedSearches_fetch sdk svc = (None, None) →
     (getSavedSearches sdk st).1 = Resolved VUndefined
     ∧ ∃ r, (handler sdk ListSavedSearches st).1 = Resolved r
            ∧ content r = [text_content (Stringify VUndefined)]
            ∧ isError r = None)
  ∧ (indexes_fetch sdk svc = (None, None) →
       (getIndexes sdk st).1 = Resolved VUndefined
       ∧ ∃ r, (handler sdk ListIndexes st).1 = Resolved r
              ∧ content r = [text_content (Stringify VUndefined)]
              ∧ isError r = None).
Proof.
  intros Hst. split; intros Hfetch.
  - split; [run; by repeat (rewrite ?Hst, ?Hfetch; simpl)|].
    exists (text_result (Stringify VUndefined)). split; [|done].
    run. by repeat (rewrite ?Hst, ?Hfetch; simpl).
  - split; [run; by repeat (rewrite ?Hst, ?Hfetch; simpl)|].
    exists (text_result (Stringify VUndefined)). split; [|done].
    run. by repeat (rewrite ?Hst, ?Hfetch; simpl).
Qed.

Lemma absent_collection_is_success_witness :
  ((getSavedSearches Mock.silent Mock.connected).1 = Resolved VUndefined
   ∧ ∃ r, (handler Mock.silent ListSavedSearches Mock.connected).1 = Resolved r
          ∧ content r = [text_content (Stringify VUndefined)]
          ∧ isError r = None)
  ∧ ((getIndexes Mock.silent Mock.connected).1 = Resolved VUndefined
     ∧ ∃ r, (handler Mock.silent ListIndexes Mock.connected).1 = Resolved r
            ∧ content r = [text_content (Stringify VUndefined)]
            ∧ isError r = None).
Proof.
  destruct (absent_collection_is_success Mock.silent Mock.connected
              (service_of Mock.config) eq_refl) as [Hsaved Hindexes].
  split; [exact (Hsaved eq_refl) | exact (Hindexes eq_refl)].
Defined.

(** * Further properties of the handlers *)

(** ** The happy path of [search] *)

(** X1: with a session, when the SDK hands over a job, tracks it and
    delivers [res], [search] answers without [isError]: a string result
    (what the SDK returns for csv and xml) verbatim, anything else through
    [JSON.stringify].  Exactly three calls are issued, in order. *)
Theorem search_returns_results sdk a st svc job res :
  splunkService st = Some svc →
  search sdk svc (prop (search_params a) "search") (search_params a) = (None, Some job) →
  track sdk job ∅ = None →
  results sdk job {[ "output_mode" := VStr (SearchArgs.output_mode a) ]} = (None, res) →
  handler sdk (Search a) st
  = (Resolved (text_result match res with VStr s => Str s | _ => Stringify res end),
     {| splunkService := Some svc;
        calls := calls st ++
                 [ CSearch svc (prop (search_params a) "search") (search_params a);
                   CTrack job ∅;
                   CResults job {[ "output_mode" := VStr (SearchArgs.output_mode a) ]} ] |}).
Proof.
  intros Hst Hsearch Htrack Hresults. run.
  repeat (rewrite ?Hst, ?Hsearch, ?Htrack, ?Hresults; simpl).
  by rewrite <- !app_assoc.
Qed.

Lemma search_returns_results_witness :
  handler (Mock.service true) (Search Mock.searchArgs) Mock.connected
  = (Resolved (text_result (Stringify Mock.mockResults)),
     {| splunkService := Some (service_of Mock.config);
        calls := calls Mock.connected ++
                 [ CSearch (service_of Mock.config)
                     (prop (search_params Mock.searchArgs) "search")
                     (search_params Mock.searchArgs);
                   CTrack Mock.job ∅;
                   CResults Mock.job {[ "output_mode" := VStr "json" ]} ] |}).
Proof.
  apply (search_returns_results (Mock.service true) Mock.searchArgs Mock.connected
           (service_of Mock.config) Mock.job Mock.mockResults); reflexivity.
Defined.

(** The entry a time bound contributes to a parameter object. *)
Lemma truthy_Some_inv o :
  truthy o = true → ∃ s, o = Some s ∧ s ≠ "".
Proof.
  destruct o as [s|]; simpl; [|done]. intros H. exists s. split; [done|].
  intros ->. discriminate H.
Qed.

(** X2: the parameter object [search] submits has the entries [search],
    [output_mode] and [count] (the parsed [max_count]); it has
    [earliest_time], respectively [latest_time], exactly when that
    argument is a non-empty string, with that string; and it has no other
    entry.  An empty time bound is dropped like an absent one. *)
Theorem search_params_entries a :
  search_params a !! "search"
  = Some (VStr (if startsWith (SearchArgs.query a) "search"
                then SearchArgs.query a
                else "search " +:+ SearchArgs.query a))
  ∧ search_params a !! "output_mode" = Some (VStr (SearchArgs.output_mode a))
  ∧ search_params a !! "count" = Some (VNum (SearchArgs.max_count a))
  ∧ search_params a !! "earliest_time"
    = (if truthy (SearchArgs.earliest_time a)
       then VStr <$> SearchArgs.earliest_time a else None)
  ∧ search_params a !! "latest_time"
    = (if truthy (SearchArgs.latest_time a)
       then VStr <$> SearchArgs.latest_time a else None)
  ∧ ∀ k, k ∉ ["search"; "output_mode"; "count"; "earliest_time"; "latest_time"] →
         search_params a !! k = None.
Proof.
  split; [apply search_params_search|]. split; [apply search_params_output_mode|].
  unfold search_params.
  destruct (truthy (SearchArgs.earliest_time a)) eqn:He;
    destruct (truthy (SearchArgs.latest_time a)) eqn:Hl;
    try (apply truthy_Some_inv in He as (se & -> & _));
    try (apply truthy_Some_inv in Hl as (sl & -> & _));
    (split; [|split; [|split]]; [by simplify_map_eq..|]);
    intros k; rewrite !not_elem_of_cons; intros (? & ? & ? & ? & ? & _);
    by simplify_map_eq.
Qed.

(** X3: the options [run_saved_search] dispatches with hold
    [earliest_time], respectively [latest_time], exactly when that
    argument is a non-empty string, and nothing else: no output mode and
    no result cap are ever passed to [dispatch]. *)
Theorem dispatch_options_entries (earliestTime latestTime : option string) :
  dispatch_options earliestTime latestTime !! "earliest_time"
  = (if truthy earliestTime then VStr <$> earliestTime else None)
  ∧ dispatch_options earliestTime latestTime !! "latest_time"
    = (if truthy latestTime then VStr <$> latestTime else None)
  ∧ ∀ k, k ∉ ["earliest_time"; "latest_time"] →
         dispatch_options earliestTime latestTime !! k = None.
Proof.
  unfold dispatch_options.
  destruct (truthy earliestTime) eqn:He; destruct (truthy latestTime) eqn:Hl;
    try (apply truthy_Some_inv in He as (se & -> & _));
    try (apply truthy_Some_inv in Hl as (sl & -> & _));
    (split; [|split]; [by simplify_map_eq..|]);
    intros k; rewrite !not_elem_of_cons; intros (? & ? & _);
    by simplify_map_eq.
Qed.

Lemma search_params_entries_witness :
  search_params Mock.empty_bound !! "search" = Some (VStr "search index=main")
  ∧ search_params Mock.empty_bound !! "output_mode" = Some (VStr "csv")
  ∧ search_params Mock.empty_bound !! "count" = Some (VNum 50)
  ∧ search_params Mock.empty_bound !! "earliest_time" = None
  ∧ search_params Mock.empty_bound !! "latest_time" = Some (VStr "now")
  ∧ search_params Mock.empty_bound !! "limit" = None.
Proof.
  destruct (search_params_entries Mock.empty_bound)
    as (Hs & Hm & Hc & He & Hl & Hother).
  split; [exact Hs|]. split; [exact Hm|]. split; [exact Hc|].
  split; [exact He|]. split; [exact Hl|].
  apply (Hother "limit"). intros H.
  repeat (apply elem_of_cons in H as [H|H]; [discriminate H|]).
  by apply elem_of_nil in H.
Defined.

Lemma dispatch_options_entries_witness :
  dispatch_options (Some "-7d") (Some "") !! "earliest_time" = Some (VStr "-7d")
  ∧ dispatch_options (Some "-7d") (Some "") !! "latest_time" = None
  ∧ dispatch_options (Some "-7d") (Some "") !! "output_mode" = None.
Proof.
  destruct (dispatch_options_entries (Some "-7d") (Some "")) as (He & Hl & Hother).
  split; [exact He | split; [exact Hl|]].
  apply (Hother "output_mode"). intros H.
  repeat (apply elem_of_cons in H as [H|H]; [discriminate H|]).
  by apply elem_of_nil in H.
Defined.

(** ** Running a saved search *)

(** What [item] returns is a fetched entity bearing the name asked for. *)
Lemma item_Some c name s :
  SavedSearches.item c name = Some s →
  s ∈ SavedSearches.list c ∧ SavedSearch.name s = name.
Proof.
  unfold SavedSearches.item, SavedSearches.list.
  induction (SavedSearches.entities c) as [|x l IH]; simpl; [done|].
  destruct (String.eqb_spec (SavedSearch.name x) name) as [Heq|_].
  - intros [= ->]. split; [left | done].
  - intros H. destruct (IH H) as [Hin Hname]. split; [by right | done].
Qed.

(** X4: with a session, when the fetched collection has the saved
    search, its dispatch hands over a job, the job is tracked and [res]
    is delivered, [run_saved_search] answers [JSON.stringify(res)]
    without [isError].  Four calls are issued, in order: the fetch, the
    dispatch with the time overrides, the tracking, and a result fetch
    whose output mode is always "json". *)
Theorem run_saved_search_returns_results sdk a st svc c saved job res :
  splunkService st = Some svc →
  savedSearches_fetch sdk svc = (None, Some c) →
  SavedSearches.item c (RunSavedSearchArgs.name a) = Some saved →
  dispatch sdk saved (dispatch_options (RunSavedSearchArgs.earliest_time a)
                                       (RunSavedSearchArgs.latest_time a))
  = (None, Some job) →
  track sdk job ∅ = None →
  results sdk job {[ "output_mode" := VStr "json" ]} = (None, res) →
  handler sdk (RunSavedSearch a) st
  = (Resolved (text_result (Stringify res)),
     {| splunkService := Some svc;
        calls := calls st ++
                 [ CFetchSavedSearches svc;
                   CDispatch saved (dispatch_options (RunSavedSearchArgs.earliest_time a)
                                                     (RunSavedSearchArgs.latest_time a));
                   CTrack job ∅;
                   CResults job {[ "output_mode" := VStr "json" ]} ] |}).
Proof.
  intros Hst Hfetch Hitem Hdispatch Htrack Hresults. run.
  repeat (rewrite ?Hst, ?Hfetch, ?Hitem, ?Hdispatch, ?Htrack, ?Hresults; simpl).
  by rewrite <- !app_assoc.
Qed.

Lemma run_saved_search_returns_results_witness :
  handler (Mock.service true) (RunSavedSearch Mock.daily) Mock.connected
  = (Resolved (text_result (Stringify Mock.mockResults)),
     {| splunkService := Some (service_of Mock.config);
        calls := calls Mock.connected ++
                 [ CFetchSavedSearches (service_of Mock.config);
                   CDispatch Mock.daily_error_report
                     (dispatch_options (Some "-7d") None);
                   CTrack Mock.job ∅;
                   CResults Mock.job {[ "output_mode" := VStr "json" ]} ] |}).
Proof.
  apply (run_saved_search_returns_results (Mock.service true) Mock.daily Mock.connected
           (service_of Mock.config) Mock.mockSearches Mock.daily_error_report
           Mock.job Mock.mockResults); reflexivity.
Defined.

(** X5: whatever the SDK answers, a saved search that [run_saved_search]
    dispatches is one of the entities of the collection just fetched and
    bears the requested name, and the options are the time overrides of
    the request. *)
Theorem dispatch_targets_requested_search sdk a st saved opts :
  CDispatch saved opts ∈ issued st (handler sdk (RunSavedSearch a) st).2 →
  SavedSearch.name saved = RunSavedSearchArgs.name a
  ∧ opts = dispatch_options (RunSavedSearchArgs.earliest_time a)
                            (RunSavedSearchArgs.latest_time a)
  ∧ ∃ svc c, splunkService st = Some svc
             ∧ savedSearches_fetch sdk svc = (None, Some c)
             ∧ saved ∈ SavedSearches.list c.
Proof.
  intros Hin. revert Hin. answers;
    repeat match goal with
           | H : _ ∈ [] |- _ => by apply elem_of_nil in H
           | H : _ ∈ _ :: _ |- _ => apply elem_of_cons in H as [H|H]; simplify_eq/=
           end;
    match goal with
    | H : SavedSearches.item _ _ = Some _ |- _ => apply item_Some in H as [? ?]
    end; eauto 10.
Qed.

Lemma dispatch_targets_requested_search_witness :
  SavedSearch.name Mock.daily_error_report = "Daily Error Report"
  ∧ dispatch_options (Some "-7d") None
    = dispatch_options (RunSavedSearchArgs.earliest_time Mock.daily)
                       (RunSavedSearchArgs.latest_time Mock.daily)
  ∧ ∃ svc c, splunkService Mock.connected = Some svc
             ∧ savedSearches_fetch (Mock.service true) svc = (None, Some c)
             ∧ Mock.daily_error_report ∈ SavedSearches.list c.
Proof.
  apply (dispatch_targets_requested_search (Mock.service true) Mock.daily
           Mock.connected Mock.daily_error_report (dispatch_options (Some "-7d") None)).
  right. left.
Defined.

(** ** What an operation may call *)

(** X6: whatever the SDK answers, [configure] issues exactly one call;
    [search] at most three; [run_saved_search] at most four; the two list
    tools and the [server_info] resource at most one; and the status
    resource none. *)
Theorem call_budget sdk st :
  (∀ c,
     (length (issued st (handler sdk c st).2)
      ≤ match c with
        | Search _ => 3
        | RunSavedSearch _ => 4
        | Configure _ | ListSavedSearches | ListIndexes => 1
        end)%nat)
  ∧ (∀ config, length (issued st (handler sdk (Configure config) st).2) = 1%nat)
  ∧ (length (issued st (read_resource sdk ServerInfoResource st).2) ≤ 1)%nat
  ∧ issued st (read_resource sdk ConnectionStatus st).2 = [].
Proof.
  split; [|split; [|split]].
  - intros c. destruct c; answers; lia.
  - intros config. by answers.
  - answers; lia.
  - by answers.
Qed.

(** X7: an operation other than [configure] never logs in, and every
    method it calls on a [Service] is called on the one the session held
    when the operation started. *)
Theorem calls_go_to_current_session sdk st k :
  (∀ c, is_configure c = false →
        k ∈ issued st (handler sdk c st).2 →
        is_login k = false
        ∧ ∀ svc, call_service k = Some svc → splunkService st = Some svc)
  ∧ (∀ r, k ∈ issued st (read_resource sdk r st).2 →
          is_login k = false
          ∧ ∀ svc, call_service k = Some svc → splunkService st = Some svc).
Proof.
  split.
  - intros c Hc Hin. revert Hin. destruct c; try discriminate Hc; answers;
      repeat match goal with
             | H : _ ∈ [] |- _ => by apply elem_of_nil in H
             | H : _ ∈ _ :: _ |- _ => apply elem_of_cons in H as [H|H]; simplify_eq/=
             end;
      (split; [done | by intros ? [= ->]]).
  - intros r Hin. revert Hin. destruct r; answers;
      repeat match goal with
             | H : _ ∈ [] |- _ => by apply elem_of_nil in H
             | H : _ ∈ _ :: _ |- _ => apply elem_of_cons in H as [H|H]; simplify_eq/=
             end;
      (split; [done | by intros ? [= ->]]).
Qed.

Lemma calls_go_to_current_session_witness :
  is_login (CFetchIndexes (service_of Mock.config)) = false
  ∧ ∀ svc, call_service (CFetchIndexes (service_of Mock.config)) = Some svc →
           splunkService Mock.connected = Some svc.
Proof.
  destruct (calls_go_to_current_session (Mock.service true) Mock.connected
              (CFetchIndexes (service_of Mock.config))) as [Htools _].
  apply (Htools ListIndexes); [reflexivity | left].
Defined.

(** ** [configure] and what follows it *)

(** X8: the status resource reads "Connected" exactly when the field is
    set, touches nothing, and so, read right after a [configure] from any
    state, tells whether that login succeeded: a failed reconfiguration
    reads "Not connected" even if a session was held before. *)
Theorem status_after_configure sdk config st :
  connection_status st
  = (Resolved (resource_text "splunk://status"
                 (Str (if splunkService st is Some _ then "Connected"
                       else "Not connected"))),
     st)
  ∧ (connection_status (handler sdk (Configure config) st).2).1
    = Resolved (resource_text "splunk://status"
                  (Str (if login sdk (service_of config) is None then "Connected"
                        else "Not connected"))).
Proof.
  split; [reflexivity|]. run. by destruct (login sdk (service_of config)).
Qed.

(** X9: after a [configure] whose login succeeded, each data-access tool
    and the [server_info] resource issue at least one call, and their
    first call is a method of the [Service] built from that
    configuration: host, port, user name, password and scheme as given,
    version "8.0".  A session held before is no longer used. *)
Theorem operations_use_latest_configuration sdk sdk' config st :
  login sdk (service_of config) = None →
  let st' := (handler sdk (Configure config) st).2 in
  let svc :=
    new_Service {| ServiceOptions.host := SplunkConfig.host config;
                   ServiceOptions.port := SplunkConfig.port config;
                   ServiceOptions.username := SplunkConfig.username config;
                   ServiceOptions.password := SplunkConfig.password config;
                   ServiceOptions.scheme := SplunkConfig.scheme config;
                   ServiceOptions.version := Some "8.0" |} in
  (∀ c, is_configure c = false →
        ∃ k rest, issued st' (handler sdk' c st').2 = k :: rest
                  ∧ call_service k = Some svc)
  ∧ ∃ k rest, issued st' (read_resource sdk' ServerInfoResource st').2 = k :: rest
              ∧ call_service k = Some svc.
Proof.
  intros Hlogin st' svc.
  assert (splunkService st' = Some svc) as Hst'.
  { subst st'. run. fold (service_of config). by rewrite Hlogin. }
  clearbody st'. clear Hlogin. split.
  - intros c Hc. revert Hst'. destruct c; try discriminate Hc; answers; eauto.
  - revert Hst'. answers; eauto.
Qed.

Lemma operations_use_latest_configuration_witness :
  ∃ k rest,
    issued Mock.connected (handler Mock.down ListIndexes Mock.connected).2 = k :: rest
    ∧ call_service k = Some (service_of Mock.config).
Proof.
  destruct (operations_use_latest_configuration (Mock.service true) Mock.down
              Mock.config initial eq_refl) as [Htools _].
  exact (Htools ListIndexes eq_refl).
Defined.

(** ** The [server_info] resource *)

(** X10: with a session, when the callback carries no error,
    [server_info] answers the serialisation of a record with the keys
    version, build, serverName, licenseState and mode: the server's
    properties when an info object is delivered, and five [undefined]
    values, still as a regular answer, when none is. *)
Theorem server_info_projects sdk st svc info :
  splunkService st = Some svc →
  serverInfo sdk svc = (None, info) →
  ∃ v,
    read_resource sdk ServerInfoResource st
    = (Resolved (resource_text "splunk://info" (Stringify v)),
       {| splunkService := Some svc; calls := calls st ++ [CServerInfo svc] |})
    ∧ keys v = ["version"; "build"; "serverName"; "licenseState"; "mode"]
    ∧ match info with
      | Some i =>
          let p := ServerInfo.properties i in
          field v "version" = VStr (ServerInfo.version p)
          ∧ field v "build" = VStr (ServerInfo.build p)
          ∧ field v "serverName" = VStr (ServerInfo.serverName p)
          ∧ field v "licenseState" = VStr (ServerInfo.licenseState p)
          ∧ field v "mode" = VStr (ServerInfo.mode p)
      | None => ∀ k, field v k = VUndefined
      end.
Proof.
  intros Hst Hinfo. exists (project_server_info info). split; [|split].
  - run. by repeat (rewrite ?Hst, ?Hinfo; simpl).
  - reflexivity.
  - destruct info as [i|]; [by repeat split|].
    intros k. unfold field, project_server_info. cbn -[String.eqb].
    repeat (destruct (String.eqb _ k); [reflexivity|]). reflexivity.
Qed.

Lemma server_info_projects_witness :
  ∃ v,
    read_resource (Mock.service true) ServerInfoResource Mock.connected
    = (Resolved (resource_text "splunk://info" (Stringify v)),
       {| splunkService := Some (service_of Mock.config);
          calls := calls Mock.connected ++ [CServerInfo (service_of Mock.config)] |})
    ∧ keys v = ["version"; "build"; "serverName"; "licenseState"; "mode"]
    ∧ field v "version" = VStr "8.2.0"
    ∧ field v "build" = VStr "12345"
    ∧ field v "serverName" = VStr "test-splunk"
    ∧ field v "licenseState" = VStr "OK"
    ∧ field v "mode" = VStr "normal".
Proof.
  exact (server_info_projects (Mock.service true) Mock.connected
           (service_of Mock.config) (Some Mock.mockInfo) eq_refl eq_refl).
Defined.

(** ** What the schemas let through *)

(** X11: what the [search] schema hands to the handler is well formed:
    the query is the string given, a time bound that is present is the
    string given, [max_count] is a number that is neither below 1 nor
    above 10000 (nor NaN), and [output_mode] is one of json, csv, xml. *)
Theorem search_schema_sound args a :
  search_schema args = Some a →
  prop args "query" = VStr (SearchArgs.query a)
  ∧ (∀ s, SearchArgs.earliest_time a = Some s → prop args "earliest_time" = VStr s)
  ∧ (∀ s, SearchArgs.latest_time a = Some s → prop args "latest_time" = VStr s)
  ∧ PrimFloat.eqb (SearchArgs.max_count a) (SearchArgs.max_count a) = true
  ∧ PrimFloat.ltb (SearchArgs.max_count a) 1 = false
  ∧ PrimFloat.ltb 10000 (SearchArgs.max_count a) = false
  ∧ SearchArgs.output_mode a ∈ ["json"; "csv"; "xml"].
Proof.
  intros Hparse.
  destruct (search_schema_Some args a Hparse) as (Hq & He & Hl & Hc & Hm).
  assert (∀ v x, z_string v = Some x → v = VStr x) as Hstring.
  { intros v y H. destruct v; simpl in H; by simplify_eq. }
  assert (∀ v o s, z_optional z_string v = Some o → o = Some s → v = VStr s) as Hopt.
  { intros v o y H ->. destruct v; simpl in H; by simplify_eq. }
  assert (∀ x y, z_max 10000 (z_min 1 z_number) (VNum x) = Some y →
                 PrimFloat.eqb y y = true ∧ PrimFloat.ltb y 1 = false
                 ∧ PrimFloat.ltb 10000 y = false) as Hrange.
  { intros x y. unfold z_max, z_min, z_number.
    destruct (PrimFloat.eqb x x) eqn:?; [|done].
    destruct (PrimFloat.ltb x 1) eqn:?; [done|].
    destruct (PrimFloat.ltb 10000 x) eqn:?; [done|]. by intros [= <-]. }
  assert (∀ s y, z_enum ["json"; "csv"; "xml"] (VStr s) = Some y →
                 y ∈ ["json"; "csv"; "xml"]) as Henum.
  { intros s y. unfold z_enum. case_bool_decide; [|done]. by intros [= <-]. }
  split; [by apply Hstring|]. split; [by eauto|]. split; [by eauto|].
  assert (PrimFloat.eqb (SearchArgs.max_count a) (SearchArgs.max_count a) = true
          ∧ PrimFloat.ltb (SearchArgs.max_count a) 1 = false
          ∧ PrimFloat.ltb 10000 (SearchArgs.max_count a) = false) as (? & ? & ?).
  { destruct (prop args "max_count"); try done.
    - by apply (Hrange 100%float).
    - by apply (Hrange x). }
  repeat (split; [done|]).
  destruct (prop args "output_mode"); try done.
  - by apply (Henum "json").
  - by apply (Henum s).
Qed.

Lemma search_schema_sound_witness :
  prop Mock.arguments "query" = VStr (SearchArgs.query Mock.searchArgs)
  ∧ PrimFloat.ltb (SearchArgs.max_count Mock.searchArgs) 1 = false
  ∧ PrimFloat.ltb 10000 (SearchArgs.max_count Mock.searchArgs) = false.
Proof.
  destruct (search_schema_sound Mock.arguments Mock.searchArgs)
    as (Hq & _ & _ & _ & Hlow & Hhigh & _).
  - vm_compute. reflexivity.
  - split; [exact Hq | split; [exact Hlow | exact Hhigh]].
Defined.

(** X12: in an invocation the schema accepts, [max_count] may be
    replaced by any number from 1 to 10000, whole or not, and the
    invocation is still accepted, with that number as parsed [max_count]
    and the other fields as before; and with [max_count] removed it is
    accepted with 100. *)
Theorem max_count_in_range_accepted args a x :
  search_schema args = Some a →
  PrimFloat.eqb x x = true →
  PrimFloat.ltb x 1 = false →
  PrimFloat.ltb 10000 x = false →
  search_schema (<["max_count" := VNum x]> args)
  = Some {| SearchArgs.query := SearchArgs.query a;
            SearchArgs.earliest_time := SearchArgs.earliest_time a;
            SearchArgs.latest_time := SearchArgs.latest_time a;
            SearchArgs.max_count := x;
            SearchArgs.output_mode := SearchArgs.output_mode a |}
  ∧ search_schema (delete "max_count" args)
    = Some {| SearchArgs.query := SearchArgs.query a;
              SearchArgs.earliest_time := SearchArgs.earliest_time a;
              SearchArgs.latest_time := SearchArgs.latest_time a;
              SearchArgs.max_count := 100;
              SearchArgs.output_mode := SearchArgs.output_mode a |}.
Proof.
  intros Hparse Hnum Hlow Hhigh.
  destruct (search_schema_Some args a Hparse) as (Hq & He & Hl & _ & Hm).
  split.
  - unfold search_schema.
    rewrite (prop_insert_ne args _ "query"), (prop_insert_ne args _ "earliest_time"),
      (prop_insert_ne args _ "latest_time"), (prop_insert_ne args _ "output_mode"),
      prop_insert_eq, Hq, He, Hl, Hm by done.
    assert (z_default (z_max 10000 (z_min 1 z_number)) (VNum 100) (VNum x) = Some x)
      as ->; [|done].
    unfold z_default, z_max, z_min, z_number. by rewrite Hnum, Hlow, Hhigh.
  - unfold search_schema, prop in *.
    rewrite lookup_delete_eq, !lookup_delete_ne, Hq, He, Hl, Hm by done.
    reflexivity.
Qed.

Lemma max_count_in_range_accepted_witness :
  search_schema (<["max_count" := VNum 2.5]> Mock.arguments)
  = Some {| SearchArgs.query := SearchArgs.query Mock.searchArgs;
            SearchArgs.earliest_time := SearchArgs.earliest_time Mock.searchArgs;
            SearchArgs.latest_time := SearchArgs.latest_time Mock.searchArgs;
            SearchArgs.max_count := 2.5;
            SearchArgs.output_mode := SearchArgs.output_mode Mock.searchArgs |}
  ∧ search_schema (delete "max_count" Mock.arguments)
    = Some {| SearchArgs.query := SearchArgs.query Mock.searchArgs;
              SearchArgs.earliest_time := SearchArgs.earliest_time Mock.searchArgs;
              SearchArgs.latest_time := SearchArgs.latest_time Mock.searchArgs;
              SearchArgs.max_count := 100;
              SearchArgs.output_mode := SearchArgs.output_mode Mock.searchArgs |}.
Proof.
  apply (max_count_in_range_accepted Mock.arguments Mock.searchArgs 2.5%float).
  - vm_compute. reflexivity.
  - reflexivity.
  - reflexivity.
  - reflexivity.
Defined.

(** X13: a [configure] invocation that gives host, user name and
    password and leaves [port] and [scheme] out logs in, from any state,
    with port 8089, scheme "https" and version "8.0", and that login is
    the one call it issues. *)
Theorem configure_defaults sdk args h u p st :
  args !! "host" = Some (VStr h) →
  args !! "username" = Some (VStr u) →
  args !! "password" = Some (VStr p) →
  args !! "port" = None →
  args !! "scheme" = None →
  issued st (configure_tool sdk args st).2
  = [ CLogin (new_Service {| ServiceOptions.host := h;
                             ServiceOptions.port := 8089;
                             ServiceOptions.username := u;
                             ServiceOptions.password := p;
                             ServiceOptions.scheme := "https";
                             ServiceOptions.version := Some "8.0" |}) ].
Proof.
  intros Hh Hu Hp Hport Hscheme.
  assert (configure_schema args
          = Some {| SplunkConfig.host := h; SplunkConfig.port := 8089;
                    SplunkConfig.username := u; SplunkConfig.password := p;
                    SplunkConfig.scheme := "https" |}) as Hparse.
  { unfold configure_schema, prop. by rewrite Hh, Hu, Hp, Hport, Hscheme. }
  unfold configure_tool, tool. rewrite Hparse. by answers.
Qed.

Lemma configure_defaults_witness :
  issued Mock.connected
    (configure_tool (Mock.service true) Mock.minimal_configuration Mock.connected).2
  = [ CLogin (new_Service {| ServiceOptions.host := "localhost";
                             ServiceOptions.port := 8089;
                             ServiceOptions.username := "admin";
                             ServiceOptions.password := "secret";
                             ServiceOptions.scheme := "https";
                             ServiceOptions.version := Some "8.0" |}) ].
Proof.
  apply (configure_defaults (Mock.service true) Mock.minimal_configuration
           "localhost" "admin" "secret" Mock.connected); reflexivity.
Defined.

(** X14: an invocation that lacks a required string argument ([query]
    for [search], [name] for [run_saved_search], any of [host],
    [username], [password] for [configure]), or gives something other
    than a string for it, is refused before the handler runs: no call is
    issued, and a session that was held is still held. *)
Theorem missing_required_argument_rejected sdk args st :
  ((∀ s, prop args "query" ≠ VStr s) →
   search_tool sdk args st = (Rejected (invalid_params "search"), st))
  ∧ ((∀ s, prop args "name" ≠ VStr s) →
     run_saved_search_tool sdk args st
     = (Rejected (invalid_params "run_saved_search"), st))
  ∧ ((∃ k, k ∈ ["host"; "username"; "password"] ∧ ∀ s, prop args k ≠ VStr s) →
     configure_tool sdk args st = (Rejected (invalid_params "configure"), st)).
Proof.
  assert (∀ v, (∀ s, v ≠ VStr s) → z_string v = None) as Hstring.
  { intros v Hv. destruct v; try done. by destruct (Hv s). }
  split; [|split].
  - intros Hq. unfold search_tool, tool, search_schema. by rewrite (Hstring _ Hq).
  - intros Hn. unfold run_saved_search_tool, tool, run_saved_search_schema.
    by rewrite (Hstring _ Hn).
  - intros (k & Hk & Hv). unfold configure_tool, tool.
    assert (configure_schema args = None) as ->; [|done].
    unfold configure_schema.
    apply elem_of_cons in Hk as [->|Hk]; [by rewrite (Hstring _ Hv)|].
    destruct (z_string (prop args "host")); simpl; [|done].
    destruct (z_default z_number _ _); simpl; [|done].
    apply elem_of_cons in Hk as [->|Hk]; [by rewrite (Hstring _ Hv)|].
    destruct (z_string (prop args "username")); simpl; [|done].
    apply elem_of_cons in Hk as [->|Hk]; [by rewrite (Hstring _ Hv)|].
    by apply elem_of_nil in Hk.
Qed.

Lemma missing_required_argument_rejected_witness :
  search_tool (Mock.service true) Mock.minimal_configuration Mock.connected
  = (Rejected (invalid_params "search"), Mock.connected)
  ∧ run_saved_search_tool (Mock.service true) Mock.minimal_configuration Mock.connected
    = (Rejected (invalid_params "run_saved_search"), Mock.connected)
  ∧ configure_tool (Mock.service true) Mock.bare_query Mock.connected
    = (Rejected (invalid_params "configure"), Mock.connected).
Proof.
  destruct (missing_required_argument_rejected (Mock.service true)
              Mock.minimal_configuration Mock.connected) as (Hsearch & Hrun & _).
  destruct (missing_required_argument_rejected (Mock.service true)
              Mock.bare_query Mock.connected) as (_ & _ & Hconfigure).
  split; [|split].
  - apply Hsearch. intros s. vm_compute. discriminate.
  - apply Hrun. intros s. vm_compute. discriminate.
  - apply Hconfigure. exists "username". split; [right; left|].
    intros s. vm_compute. discriminate.
Defined.

(** X15: an [output_mode] that is a string other than json, csv, xml
    makes [search] refuse the invocation, and a [scheme] that is a string
    other than http, https makes [configure] refuse it; in both cases
    nothing is called and the session is left as it was. *)
Theorem value_outside_enumeration_rejected sdk args s st :
  (args !! "output_mode" = Some (VStr s) → s ∉ ["json"; "csv"; "xml"] →
   search_tool sdk args st = (Rejected (invalid_params "search"), st))
  ∧ (args !! "scheme" = Some (VStr s) → s ∉ ["http"; "https"] →
     configure_tool sdk args st = (Rejected (invalid_params "configure"), st)).
Proof.
  split; intros Hs Hnot.
  - unfold search_tool, tool.
    assert (search_schema args = None) as ->; [|done].
    assert (prop args "output_mode" = VStr s) as Hprop by (unfold prop; by rewrite Hs).
    unfold search_schema. rewrite Hprop.
    destruct (z_string _); simpl; [|done].
    destruct (z_optional z_string (prop args "earliest_time")); simpl; [|done].
    destruct (z_optional z_string (prop args "latest_time")); simpl; [|done].
    destruct (z_default (z_max _ _) _ _); simpl; [|done].
    unfold z_enum. by rewrite bool_decide_eq_false_2.
  - unfold configure_tool, tool.
    assert (configure_schema args = None) as ->; [|done].
    assert (prop args "scheme" = VStr s) as Hprop by (unfold prop; by rewrite Hs).
    unfold configure_schema. rewrite Hprop.
    destruct (z_string (prop args "host")); simpl; [|done].
    destruct (z_default z_number _ _); simpl; [|done].
    destruct (z_string (prop args "username")); simpl; [|done].
    destruct (z_string (prop args "password")); simpl; [|done].
    unfold z_enum. by rewrite bool_decide_eq_false_2.
Qed.

Lemma value_outside_enumeration_rejected_witness :
  search_tool (Mock.service true) (<["output_mode" := VStr "raw"]> Mock.arguments)
    Mock.connected
  = (Rejected (invalid_params "search"), Mock.connected)
  ∧ configure_tool (Mock.service true)
      (<["scheme" := VStr "ftp"]> Mock.minimal_configuration) Mock.connected
    = (Rejected (invalid_params "configure"), Mock.connected).
Proof.
  split.
  - apply (value_outside_enumeration_rejected (Mock.service true) _ "raw" Mock.connected);
      [reflexivity|].
    intros H. repeat (apply elem_of_cons in H as [H|H]; [discriminate H|]).
    by apply elem_of_nil in H.
  - apply (value_outside_enumeration_rejected (Mock.service true) _ "ftp" Mock.connected);
      [reflexivity|].
    intros H. repeat (apply elem_of_cons in H as [H|H]; [discriminate H|]).
    by apply elem_of_nil in H.
Defined.

(** X16: a [search] invocation that gives the query alone submits, on
    the session's service, the parameter object with exactly the entries
    [search] (the query, behind "search " unless it starts with
    "search"), [output_mode] "json" and [count] 100. *)
Theorem search_defaults sdk args q st svc :
  args !! "query" = Some (VStr q) →
  args !! "earliest_time" = None →
  args !! "latest_time" = None →
  args !! "max_count" = None →
  args !! "output_mode" = None →
  splunkService st = Some svc →
  let submitted := if startsWith q "search" then q else "search " +:+ q in
  ∃ rest,
    issued st (search_tool sdk args st).2
    = CSearch svc (VStr submitted)
        {[ "search" := VStr submitted;
           "output_mode" := VStr "json";
           "count" := VNum 100 ]} :: rest.
Proof.
  intros Hq He Hl Hc Hm Hst submitted.
  assert (search_schema args
          = Some {| SearchArgs.query := q; SearchArgs.earliest_time := None;
                    SearchArgs.latest_time := None; SearchArgs.max_count := 100;
                    SearchArgs.output_mode := "json" |}) as Hparse.
  { unfold search_schema, prop. by rewrite Hq, He, Hl, Hc, Hm. }
  unfold search_tool, tool. rewrite Hparse.
  destruct (search_issues_search sdk
              {| SearchArgs.query := q; SearchArgs.earliest_time := None;
                 SearchArgs.latest_time := None; SearchArgs.max_count := 100;
                 SearchArgs.output_mode := "json" |} st svc Hst) as [rest Hrest].
  unfold handler in Hrest. exists rest. rewrite Hrest.
  unfold prop. rewrite search_params_search. reflexivity.
Qed.

Lemma search_defaults_witness :
  ∃ rest,
    issued Mock.connected
      (search_tool (Mock.service true) Mock.bare_query Mock.connected).2
    = CSearch (service_of Mock.config) (VStr "search index=main | head 10")
        {[ "search" := VStr "search index=main | head 10";
           "output_mode" := VStr "json";
           "count" := VNum 100 ]} :: rest.
Proof.
  apply (search_defaults (Mock.service true) Mock.bare_query "index=main | head 10"
           Mock.connected (service_of Mock.config)); reflexivity.
Defined.

(** ** A callback that carries neither error nor job *)

(** X17: when the [search] callback carries no error and no job,
    [search] answers with an error response (the engine's complaint about
    reading [track] off [undefined]), having issued the one call:
    [job.track] is evaluated inside the promise of [getSearchResults], so
    the exception rejects it and the handler catches it. *)
Theorem absent_job_is_reported_by_search sdk a st svc :
  splunkService st = Some svc →
  search sdk svc (prop (search_params a) "search") (search_params a) = (None, None) →
  handler sdk (Search a) st
  = (Resolved (error_result "Error executing search: " (TypeError_reading "track")),
     {| splunkService := Some svc;
        calls := calls st ++
                 [CSearch svc (prop (search_params a) "search") (search_params a)] |}).
Proof.
  intros Hst Hsearch. run. by repeat (rewrite ?Hst, ?Hsearch; simpl).
Qed.

Lemma absent_job_is_reported_by_search_witness :
  handler Mock.jobless (Search Mock.searchArgs) Mock.connected
  = (Resolved (error_result "Error executing search: " (TypeError_reading "track")),
     {| splunkService := Some (service_of Mock.config);
        calls := calls Mock.connected ++
                 [CSearch (service_of Mock.config)
                    (prop (search_params Mock.searchArgs) "search")
                    (search_params Mock.searchArgs)] |}).
Proof.
  apply (absent_job_is_reported_by_search Mock.jobless Mock.searchArgs Mock.connected
           (service_of Mock.config)); reflexivity.
Defined.

(** X18: when the [dispatch] callback of a saved search carries no error
    and no job, [run_saved_search] gives no answer at all: [job.track] is
    evaluated inside that callback, where neither the promise nor the
    handler's [catch] sees the exception.  The fetch and the dispatch
    have been issued by then. *)
Theorem absent_job_escapes_run_saved_search sdk a st svc c saved :
  splunkService st = Some svc →
  savedSearches_fetch sdk svc = (None, Some c) →
  SavedSearches.item c (RunSavedSearchArgs.name a) = Some saved →
  dispatch sdk saved (dispatch_options (RunSavedSearchArgs.earliest_time a)
                                       (RunSavedSearchArgs.latest_time a))
  = (None, None) →
  handler sdk (RunSavedSearch a) st
  = (Uncaught (TypeError_reading "track"),
     {| splunkService := Some svc;
        calls := calls st ++
                 [ CFetchSavedSearches svc;
                   CDispatch saved
                     (dispatch_options (RunSavedSearchArgs.earliest_time a)
                                       (RunSavedSearchArgs.latest_time a)) ] |}).
Proof.
  intros Hst Hfetch Hitem Hdispatch. run.
  repeat (rewrite ?Hst, ?Hfetch, ?Hitem, ?Hdispatch; simpl).
  by rewrite <- !app_assoc.
Qed.

Lemma absent_job_escapes_run_saved_search_witness :
  handler Mock.jobless (RunSavedSearch Mock.daily) Mock.connected
  = (Uncaught (TypeError_reading "track"),
     {| splunkService := Some (service_of Mock.config);
        calls := calls Mock.connected ++
                 [ CFetchSavedSearches (service_of Mock.config);
                   CDispatch Mock.daily_error_report
                     (dispatch_options (Some "-7d") None) ] |}).
Proof.
  apply (absent_job_escapes_run_saved_search Mock.jobless Mock.daily Mock.connected
           (service_of Mock.config) Mock.mockSearches Mock.daily_error_report);
    reflexivity.
Defined.

(** ** The shape of every answer *)

(** X19: whatever the SDK answers, a tool's response has exactly one
    content item, of type "text", and its [isError] is either absent or
    [true], never [false]; a resource's response has exactly one item,
    under the URI the resource is registered with. *)
Theorem responses_have_one_item sdk st :
  (∀ c r st', handler sdk c st = (Resolved r, st') →
     (∃ t, content r = [ {| TextContent.type := "text"; TextContent.text := t |} ])
     ∧ (isError r = None ∨ isError r = Some true))
  ∧ (∀ x r st', read_resource sdk x st = (Resolved r, st') →
       ∃ t, contents r = [ {| ResourceContents.uri := resource_uri x;
                              ResourceContents.text := t |} ]).
Proof.
  split.
  - intros c r st'. destruct c; answers; (split; [by eexists | auto]).
  - intros x r st'. destruct x; answers; by eexists.
Qed.

Lemma responses_have_one_item_witness :
  (∃ t, content (error_result "Error listing indexes: " (Error "connect ECONNREFUSED"))
        = [ {| TextContent.type := "text"; TextContent.text := t |} ])
  ∧ (isError (error_result "Error listing indexes: " (Error "connect ECONNREFUSED")) = None
     ∨ isError (error_result "Error listing indexes: " (Error "connect ECONNREFUSED"))
       = Some true).
Proof.
  destruct (responses_have_one_item Mock.down Mock.connected) as [Htools _].
  apply (Htools ListIndexes _
           {| splunkService := Some (service_of Mock.config);
              calls := calls Mock.connected ++ [CFetchIndexes (service_of Mock.config)] |}).
  reflexivity.
Defined.
